(** * rfc7807: problem-details responses and their documentation pages

    A shallow embedding of [rfc7807.go].  The registry ([RFC7807]) is threaded
    explicitly through the registration functions, which may also panic; the
    response writer is threaded through the handlers.  The standard-library and
    third-party packages the file imports (net/http, net/url, encoding/json,
    html/template, blackfriday, chi) are not part of the repository: their
    pure string functions are transcribed ([PathEscape], [path_Join]), the
    others are interfaces ([NetHTTP], [NetURL], [EncodingJSON],
    [HTMLTemplate], [Blackfriday]) over which every theorem is generic.
    Module [Reference] instantiates them to run the examples. *)

From Stdlib Require Import ZArith Ascii Strings.Byte.
From stdpp Require Import base option list strings gmap sorting pretty.

Local Open Scope Z_scope.

(** ** Go values *)

(** A Go [[]byte]; the nil slice and the empty slice are both [[]], the only
    test the source makes on one is [len(html) > 0]. *)
Abbreviation bytes := (list byte) (only parsing).

Definition bytes_of (s : string) : bytes := String.list_byte_of_string s.

(** Go's [error], by its message. *)
Abbreviation error := string (only parsing).

(** The dynamic values an [interface{}] holds here: what the source stores
    itself (a string, an int) and what a caller may pass as an extension
    value.  [VChan] stands for a value of a type encoding/json refuses
    (a channel, a func). *)
Inductive GoValue : Type :=
  | VNil
  | VBool (b : bool)
  | VInt (n : Z)
  | VString (s : string)
  | VChan.

(** [type Extension struct { Key string; Value interface{} }].  The source
    receives extensions as [*Extension]; they are taken to be built by [Ext],
    hence never nil. *)
Record Extension : Type := mkExtension { Key : string; Value : GoValue }.

Definition Ext (key : string) (value : GoValue) : Extension :=
  {| Key := key; Value := value |}.

(** ** net/http: the response writer

    [http.ResponseWriter] by its documented contract: [Header()] is the map
    the handler edits; [WriteHeader] sends the status line together with the
    header map as it is at that moment, and only the first call counts;
    changing the map afterwards has no effect on the response; a [Write]
    before any [WriteHeader] sends [200] first.  Status-code validation and
    the informational (1xx) exchange of recent servers are left out. *)
Record ResponseWriter : Type := mkResponseWriter {
  handlerHeader : gmap string (list string);
  wroteHeader : option (Z * gmap string (list string));
  written : bytes
}.

(** [w.Header().Set(key, value)] for a key already in canonical form. *)
Definition Header_Set (key value : string) (w : ResponseWriter) : ResponseWriter :=
  {| handlerHeader := <[key := [value]]> (handlerHeader w);
     wroteHeader := wroteHeader w;
     written := written w |}.

Definition WriteHeader (statusCode : Z) (w : ResponseWriter) : ResponseWriter :=
  match wroteHeader w with
  | Some _ => w
  | None =>
      {| handlerHeader := handlerHeader w;
         wroteHeader := Some (statusCode, handlerHeader w);
         written := written w |}
  end.

Definition StatusOK : Z := 200.

Definition Write (p : bytes) (w : ResponseWriter) : ResponseWriter :=
  let w := match wroteHeader w with
           | Some _ => w
           | None => WriteHeader StatusOK w
           end in
  {| handlerHeader := handlerHeader w;
     wroteHeader := wroteHeader w;
     written := written w ++ p |}.

(** What the client receives: status, headers and body of the response. *)
Definition sentStatus (w : ResponseWriter) : option Z := fst <$> wroteHeader w.

Definition sentHeader (w : ResponseWriter) (key : string) : option (list string) :=
  wroteHeader w ≫= λ sh, snd sh !! key.

(** A writer nothing was done to yet, as a server hands one to a handler. *)
Definition newResponseWriter : ResponseWriter :=
  {| handlerHeader := ∅; wroteHeader := None; written := [] |}.

(** [*http.Request], by what routing reads: the method and [URL.Path], the
    decoded path of the request. *)
Record Request : Type := mkRequest { Method : string; RequestPath : string }.

Abbreviation HandlerFunc := (ResponseWriter → Request → ResponseWriter) (only parsing).

(** [http.StatusText]. *)
Class NetHTTP : Type := { StatusText : Z → string }.

(** ** encoding/json

    [Encoder.Encode] marshals the value, appends a newline, indents the result
    when an indentation is set, and writes it in one [Write]; when marshalling
    fails it writes nothing and returns the error. *)
Class EncodingJSON : Type := {
  json_marshal : gmap string GoValue → error + bytes;
  json_appendIndent : bytes → string → string → error + bytes
}.

Record Encoder : Type := mkEncoder {
  enc_w : ResponseWriter;
  indentPrefix : string;
  indentValue : string
}.

Definition NewEncoder (w : ResponseWriter) : Encoder :=
  {| enc_w := w; indentPrefix := ""; indentValue := "" |}.

Definition SetIndent (prefix indent : string) (enc : Encoder) : Encoder :=
  {| enc_w := enc_w enc; indentPrefix := prefix; indentValue := indent |}.

Definition newline : byte := x0a.

(** The bytes [Encode] hands to the writer, or the error it returns. *)
Definition encoded `{EncodingJSON} (prefix indent : string)
    (v : gmap string GoValue) : error + bytes :=
  match json_marshal v with
  | inl err => inl err
  | inr e =>
      let b := e ++ [newline] in
      if bool_decide (prefix ≠ "" ∨ indent ≠ "")
      then json_appendIndent b prefix indent
      else inr b
  end.

Definition Encode `{EncodingJSON} (enc : Encoder) (v : gmap string GoValue)
    : ResponseWriter * option error :=
  match encoded (indentPrefix enc) (indentValue enc) v with
  | inl err => (enc_w enc, Some err)
  | inr b => (Write b (enc_w enc), None)
  end.

(** ** The registry *)

(** [type problemHandlerFunc func(http.ResponseWriter, int, string, ...*Extension)];
    a nil func is [None] wherever one can occur. *)
Abbreviation problemHandlerFunc :=
  (ResponseWriter → Z → string → list Extension → ResponseWriter) (only parsing).

(** [chi.Mux], by the routes the source installs: patterns without
    parameters, each matched against the whole path of a GET request. *)
Abbreviation Mux := (gmap string HandlerFunc) (only parsing).

Definition NewMux : Mux := ∅.

Definition Mux_Get (pattern : string) (h : HandlerFunc) (m : Mux) : Mux :=
  <[pattern := h]> m.

(** [type RFC7807 struct]; a nil mux and a nil map are [None]. *)
Record RFC7807 : Type := mkRFC7807 {
  URL : string;
  mux : option Mux;
  problemHandlers : option (gmap string problemHandlerFunc)
}.

Definition New (url : string) : RFC7807 :=
  {| URL := url; mux := Some NewMux; problemHandlers := Some ∅ |}.

(** Reading a Go map: a nil map reads as an empty one. *)
Definition handlers (rfc7807 : RFC7807) : gmap string problemHandlerFunc :=
  default ∅ (problemHandlers rfc7807).

Definition routes (rfc7807 : RFC7807) : Mux := default ∅ (mux rfc7807).

(** The closure [HtmlDoc] stores (source lines 105-122); [docURL] and
    [title] are the variables it captures. *)
Definition problemHandler `{EncodingJSON} (docURL title : string) : problemHandlerFunc :=
  λ w status detail extensions,
    let problem : gmap string GoValue := ∅ in
    let problem :=
      foldl (λ problem extension, <[Key extension := Value extension]> problem)
            problem extensions in
    let problem := <["type" := VString docURL]> problem in
    let problem := <["title" := VString title]> problem in
    let problem := <["status" := VInt status]> problem in
    let problem := <["detail" := VString detail]> problem in
    let w := WriteHeader status w in
    let w := Header_Set "Content-Type" "application/problem+json; charset=utf-8" w in
    let encoder := NewEncoder w in
    let encoder := SetIndent "" "  " encoder in
    fst (Encode encoder problem).

(** ** net/url and path *)

(** [url.PathEscape]: [escape(s, encodePathSegment)].  Of the modes of
    [shouldEscape] only the two that occur here are kept. *)
Inductive encoding : Type := encodePath | encodePathSegment.

Definition is_byte (c : ascii) (set : string) : bool :=
  bool_decide (c ∈ String.list_ascii_of_string set).

Definition shouldEscape (c : ascii) (mode : encoding) : bool :=
  let n := N_of_ascii c in
  if ((97 <=? n) && (n <=? 122) || (65 <=? n) && (n <=? 90)
      || (48 <=? n) && (n <=? 57))%N then false
  else if is_byte c "-_.~" then false
  else if is_byte c "$&+,/:;=?@" then
    match mode with
    | encodePath => is_byte c "?"
    | encodePathSegment => is_byte c "/;,?"
    end
  else true.

Definition upperhex (n : N) : ascii :=
  default "0"%char (String.list_ascii_of_string "0123456789ABCDEF" !! N.to_nat n).

Fixpoint escape (s : string) (mode : encoding) : string :=
  match s with
  | EmptyString => EmptyString
  | String c s' =>
      if shouldEscape c mode
      then String "%" (String (upperhex (N.shiftr (N_of_ascii c) 4))
                      (String (upperhex (N.land (N_of_ascii c) 15)) (escape s' mode)))
      else String c (escape s' mode)
  end.

Definition PathEscape (s : string) : string := escape s encodePathSegment.

(** [path.Clean], with the output buffer kept reversed ([w] is its length)
    and one byte read per step: [inElem] says the scan is inside a path
    element being copied. *)
Fixpoint backtrack (dotdot : nat) (last : ascii) (out : list ascii) : list ascii :=
  match out with
  | c :: out' =>
      if bool_decide (dotdot < length out)%nat && negb (bool_decide (last = "/"%char))
      then backtrack dotdot c out'
      else out
  | [] => []
  end.

Definition at_element_end (rest : string) : bool :=
  match rest with
  | EmptyString => true
  | String c _ => bool_decide (c = "/"%char)
  end.

Fixpoint clean_loop (rooted : bool) (path : string) (inElem : bool)
    (out : list ascii) (dotdot : nat) : list ascii :=
  match path with
  | EmptyString => out
  | String c rest =>
      if inElem then
        if bool_decide (c = "/"%char)
        then clean_loop rooted rest false out dotdot
        else clean_loop rooted rest true (c :: out) dotdot
      else if bool_decide (c = "/"%char) then
        clean_loop rooted rest false out dotdot
      else if bool_decide (c = "."%char) && at_element_end rest then
        clean_loop rooted rest false out dotdot
      else
        match rest with
        | String c' rest' =>
            if bool_decide (c = "."%char) && bool_decide (c' = "."%char)
               && at_element_end rest'
            then
              if bool_decide (dotdot < length out)%nat then
                match out with
                | last :: out' =>
                    clean_loop rooted rest' false (backtrack dotdot last out') dotdot
                | [] => clean_loop rooted rest' false out dotdot
                end
              else if negb rooted then
                let out := if bool_decide (0 < length out)%nat
                           then "/"%char :: out else out in
                let out := "."%char :: "."%char :: out in
                clean_loop rooted rest' false out (length out)
              else clean_loop rooted rest' false out dotdot
            else
              let out := if rooted && negb (bool_decide (length out = 1%nat))
                            || negb rooted && negb (bool_decide (length out = 0%nat))
                         then "/"%char :: out else out in
              clean_loop rooted rest true (c :: out) dotdot
        | EmptyString =>
            let out := if rooted && negb (bool_decide (length out = 1%nat))
                          || negb rooted && negb (bool_decide (length out = 0%nat))
                       then "/"%char :: out else out in
            clean_loop rooted rest true (c :: out) dotdot
        end
  end.

Definition Clean (path : string) : string :=
  match path with
  | EmptyString => "."
  | String c _ =>
      let rooted := bool_decide (c = "/"%char) in
      let out := if rooted then ["/"%char] else [] in
      let dotdot := if rooted then 1%nat else 0%nat in
      let out := clean_loop rooted path false out dotdot in
      match out with
      | [] => "."
      | _ => String.string_of_list_ascii (rev out)
      end
  end.

(** [path.Join]. *)
Definition path_Join (elem : list string) : string :=
  let size := foldl (λ size e, (size + String.length e)%nat) 0%nat elem in
  if bool_decide (size = 0%nat) then ""
  else
    let buf :=
      foldl (λ buf e,
               if bool_decide (0 < String.length buf)%nat || negb (bool_decide (e = ""))
               then (if bool_decide (0 < String.length buf)%nat then buf +:+ "/" else buf) +:+ e
               else buf)
            "" elem in
    Clean buf.

(** [url.URL], the fields [url.Parse] fills in. *)
Record url_URL : Type := mkURL {
  Scheme : string;
  Opaque : string;
  User : string;
  Host : string;
  Path : string;
  RawPath : string;
  RawQuery : string;
  Fragment : string
}.

Definition set_Path (u : url_URL) (p : string) : url_URL :=
  {| Scheme := Scheme u; Opaque := Opaque u; User := User u; Host := Host u;
     Path := p; RawPath := RawPath u; RawQuery := RawQuery u;
     Fragment := Fragment u |}.

(** [url.Parse] returns a nil [*URL] together with its error: [inl]. *)
Class NetURL : Type := {
  url_Parse : string → error + url_URL;
  URL_String : url_URL → string
}.

(** ** html/template and blackfriday *)

(** [Execute] appends to the buffer what it rendered before it stopped. *)
Class HTMLTemplate : Type := {
  Template : Type;
  template_Parse : string → string → error + Template;
  template_Execute : Template → gmap string string → bytes * option error
}.

Class Blackfriday : Type := { MarkdownCommon : bytes → bytes }.

Definition dquote : string := String "034" "".
Definition lf : string := String "010" "".

Definition DefaultTemplate : string :=
  "<html>" +:+ lf +:+
  "  <head>" +:+ lf +:+
  "    <meta charset=" +:+ dquote +:+ "utf-8" +:+ dquote +:+ ">" +:+ lf +:+
  "    <title>Error {{.Title}}</title>" +:+ lf +:+
  "  </head>" +:+ lf +:+
  "  <body>" +:+ lf +:+
  "    <h1>{{.Title}}</h1>" +:+ lf +:+
  "    <pre>{{.Description}}</pre>" +:+ lf +:+
  "  </body>" +:+ lf +:+
  "</html>".

(** ** Registration and dispatch

    The methods of [*RFC7807] run in a state monad over the registry; a run
    either returns or panics, and a panic keeps the registry as the
    statements before it left it. *)
Inductive Result (A : Type) : Type :=
  | Returned (a : A) (rfc7807 : RFC7807)
  | Panicked (msg : string) (rfc7807 : RFC7807).
Arguments Returned {A} a rfc7807.
Arguments Panicked {A} msg rfc7807.

Definition M (A : Type) : Type := RFC7807 → Result A.

Definition ret {A} (a : A) : M A := λ s, Returned a s.

Definition bind {A B} (m : M A) (k : A → M B) : M B :=
  λ s, match m s with
       | Returned a s' => k a s'
       | Panicked msg s' => Panicked msg s'
       end.

Definition get : M RFC7807 := λ s, Returned s s.
Definition put (s : RFC7807) : M unit := λ _, Returned tt s.
Definition panic {A} (msg : string) : M A := λ s, Panicked msg s.

Notation "'let*' x := c 'in' k" := (bind c (λ x, k))
  (at level 10, x name, c at level 100, k at level 200).
Notation "'run' c 'in' k" := (bind c (λ _, k))
  (at level 10, c at level 100, k at level 200).

Definition nil_dereference : string :=
  "runtime error: invalid memory address or nil pointer dereference".

Definition set_mux (m : option Mux) : M unit :=
  let* rfc7807 := get in
  put {| URL := URL rfc7807; mux := m; problemHandlers := problemHandlers rfc7807 |}.

Definition set_problemHandlers (h : option (gmap string problemHandlerFunc)) : M unit :=
  let* rfc7807 := get in
  put {| URL := URL rfc7807; mux := mux rfc7807; problemHandlers := h |}.

(** [rfc7807.mux.Get(p, h)]. *)
Definition mux_Get (pattern : string) (h : HandlerFunc) : M unit :=
  let* rfc7807 := get in
  match mux rfc7807 with
  | None => panic nil_dereference
  | Some m => set_mux (Some (Mux_Get pattern h m))
  end.

(** The route handler [HtmlDoc] installs (source lines 90-94). *)
Definition docHandler (html : bytes) : HandlerFunc :=
  λ aWriter aRequest,
    let aWriter := WriteHeader StatusOK aWriter in
    let aWriter := Header_Set "Content-Type" "text/html; charset=utf-8" aWriter in
    Write html aWriter.

Definition HtmlDoc `{NetURL} `{EncodingJSON} (title : string) (html : bytes)
    : M (option problemHandlerFunc) :=
  let* rfc7807 := get in
  run (if bool_decide (mux rfc7807 = None) then set_mux (Some NewMux) else ret tt) in
  let* docURL :=
    (let docURL := "" in
     if bool_decide (0 < length html)%nat then
       let p := "/" +:+ PathEscape title +:+ ".html" in
       run mux_Get p (docHandler html) in
       let* rfc7807 := get in
       match url_Parse (URL rfc7807) with
       | inl _ => panic nil_dereference
       | inr url =>
           let url := set_Path url (path_Join [Path url; p]) in
           ret (URL_String url)
       end
     else ret docURL) in
  let* rfc7807 := get in
  run (if bool_decide (problemHandlers rfc7807 = None)
       then set_problemHandlers (Some ∅) else ret tt) in
  let* rfc7807 := get in
  run set_problemHandlers
        (Some (<[title := problemHandler docURL title]> (handlers rfc7807))) in
  let* rfc7807 := get in
  ret (handlers rfc7807 !! title).

Definition TemplateDoc `{HTMLTemplate} `{NetURL} `{EncodingJSON}
    (title description templateStr : string)
    : M (option problemHandlerFunc * option error) :=
  match template_Parse "default.tpl" templateStr with
  | inl tError => ret (None, Some tError)
  | inr template =>
      let buf : bytes := [] in
      let '(out, err) :=
        template_Execute template
          (<["Title" := title]> (<["Description" := description]> ∅)) in
      let buf := buf ++ out in
      match err with
      | Some err => ret (None, Some err)
      | None => let* h := HtmlDoc title buf in ret (h, None)
      end
  end.

Definition Doc `{HTMLTemplate} `{NetURL} `{EncodingJSON} (title description : string)
    : M (option problemHandlerFunc * option error) :=
  TemplateDoc title description DefaultTemplate.

(** The literals of [MarkdownDoc] are raw strings: their [\n] is a backslash
    and an [n]. *)
Definition MarkdownDoc `{Blackfriday} `{NetURL} `{EncodingJSON}
    (title : string) (markdown : bytes) : M (option problemHandlerFunc) :=
  let buf : bytes := [] in
  let buf := buf ++ bytes_of ("<html>\n<head>\n  <meta charset=" +:+ dquote +:+ "utf-8"
                              +:+ dquote +:+ ">\n  <title>Error ") in
  let buf := buf ++ bytes_of title in
  let buf := buf ++ bytes_of "</title>\n</head>\n<body>" in
  let buf := buf ++ MarkdownCommon markdown in
  let buf := buf ++ bytes_of "</body>\n</html>" in
  HtmlDoc title buf.

Definition Error `{NetHTTP} `{EncodingJSON} (w : ResponseWriter) (title : string)
    (status : Z) (detail : string) (extensions : list Extension) : M ResponseWriter :=
  let* rfc7807 := get in
  match handlers rfc7807 !! title with
  | Some handler => ret (handler w status detail extensions)
  | None =>
      let problem : gmap string GoValue := ∅ in
      let problem :=
        foldl (λ problem extension, <[Key extension := Value extension]> problem)
              problem extensions in
      let title := if bool_decide (title = "") then StatusText status else title in
      let problem := <["title" := VString title]> problem in
      let problem := <["status" := VInt status]> problem in
      let problem := <["detail" := VString detail]> problem in
      let w := WriteHeader status w in
      let w := Header_Set "Content-Type" "application/problem+json; charset=utf-8" w in
      let encoder := NewEncoder w in
      let encoder := SetIndent "" "  " encoder in
      ret (fst (Encode encoder problem))
  end.

(** [chi]'s dispatch on the routes above: a mux to which no route was ever
    added has no handler and panics; otherwise the handler of the exact path
    on GET, 405 on another method, the default not-found page otherwise. *)
Definition no_handlers : string :=
  "chi: attempting to route to a mux with no handlers.".

Definition notFound : HandlerFunc :=
  λ w _,
    let w := Header_Set "Content-Type" "text/plain; charset=utf-8" w in
    let w := Header_Set "X-Content-Type-Options" "nosniff" w in
    let w := WriteHeader 404 w in
    Write (bytes_of ("404 page not found" +:+ lf)) w.

Definition methodNotAllowed : HandlerFunc :=
  λ w _, Write [] (WriteHeader 405 w).

Definition Mux_ServeHTTP (m : Mux) (w : ResponseWriter) (r : Request)
    : string + ResponseWriter :=
  if bool_decide (dom m = ∅) then inl no_handlers
  else
    inr match m !! RequestPath r with
        | Some h => if bool_decide (Method r = "GET") then h w r else methodNotAllowed w r
        | None => notFound w r
        end.

Definition ServeHTTP (aWriter : ResponseWriter) (aRequest : Request) : M ResponseWriter :=
  let* rfc7807 := get in
  match mux rfc7807 with
  | None => panic nil_dereference
  | Some m =>
      match Mux_ServeHTTP m aWriter aRequest with
      | inl msg => panic msg
      | inr w => ret w
      end
  end.

(** ** Reference collaborators

    One implementation of each interface, enough to run the registry on
    concrete inputs.  The theorems below do not depend on it. *)
Module Reference.

(** The table of [http.StatusText]. *)
Definition statusText : list (Z * string) :=
  [ (100, "Continue"); (101, "Switching Protocols"); (102, "Processing");
    (103, "Early Hints");
    (200, "OK"); (201, "Created"); (202, "Accepted");
    (203, "Non-Authoritative Information"); (204, "No Content");
    (205, "Reset Content"); (206, "Partial Content"); (207, "Multi-Status");
    (208, "Already Reported"); (226, "IM Used");
    (300, "Multiple Choices"); (301, "Moved Permanently"); (302, "Found");
    (303, "See Other"); (304, "Not Modified"); (305, "Use Proxy");
    (307, "Temporary Redirect"); (308, "Permanent Redirect");
    (400, "Bad Request"); (401, "Unauthorized"); (402, "Payment Required");
    (403, "Forbidden"); (404, "Not Found"); (405, "Method Not Allowed");
    (406, "Not Acceptable"); (407, "Proxy Authentication Required");
    (408, "Request Timeout"); (409, "Conflict"); (410, "Gone");
    (411, "Length Required"); (412, "Precondition Failed");
    (413, "Request Entity Too Large"); (414, "Request URI Too Long");
    (415, "Unsupported Media Type"); (416, "Requested Range Not Satisfiable");
    (417, "Expectation Failed"); (418, "I'm a teapot");
    (421, "Misdirected Request"); (422, "Unprocessable Entity");
    (423, "Locked"); (424, "Failed Dependency"); (425, "Too Early");
    (426, "Upgrade Required"); (428, "Precondition Required");
    (429, "Too Many Requests"); (431, "Request Header Fields Too Large");
    (451, "Unavailable For Legal Reasons");
    (500, "Internal Server Error"); (501, "Not Implemented");
    (502, "Bad Gateway"); (503, "Service Unavailable");
    (504, "Gateway Timeout"); (505, "HTTP Version Not Supported");
    (506, "Variant Also Negotiates"); (507, "Insufficient Storage");
    (508, "Loop Detected"); (510, "Not Extended");
    (511, "Network Authentication Required") ].

#[export] Instance netHTTP : NetHTTP :=
  {| StatusText code :=
       default "" ((λ found, found.2.2) <$> list_find (λ e, e.1 = code) statusText) |}.

(** *** encoding/json: objects of scalars, keys sorted, HTML-safe strings *)

Definition hex (n : N) : ascii :=
  default "0"%char (String.list_ascii_of_string "0123456789abcdef" !! N.to_nat n).

Definition hex4 (n : N) : string :=
  "\u00" +:+ String (hex (N.shiftr n 4)) (String (hex (N.land n 15)) "").

Fixpoint quote_body (s : string) : string :=
  match s with
  | EmptyString => EmptyString
  | String c s' =>
      let n := N_of_ascii c in
      (if bool_decide (n = 34%N) then "\" +:+ dquote
       else if bool_decide (n = 92%N) then "\\"
       else if bool_decide (n = 10%N) then "\n"
       else if bool_decide (n = 13%N) then "\r"
       else if bool_decide (n = 9%N) then "\t"
       else if (n <? 32)%N || bool_decide (n = 60%N) || bool_decide (n = 62%N)
               || bool_decide (n = 38%N)
       then hex4 n
       else String c "") +:+ quote_body s'
  end.

Definition quote (s : string) : string := dquote +:+ quote_body s +:+ dquote.

Definition marshal_value (v : GoValue) : string + string :=
  match v with
  | VNil => inr "null"
  | VBool true => inr "true"
  | VBool false => inr "false"
  | VInt n => inr (pretty n)
  | VString s => inr (quote s)
  | VChan => inl "json: unsupported type: chan int"
  end.

Definition key_le (a b : string * GoValue) : Prop := String.le a.1 b.1.

#[local] Instance key_le_dec : RelDecision key_le.
Proof. intros a b. unfold key_le. apply _. Defined.

Fixpoint marshal_members (kvs : list (string * GoValue)) : string + string :=
  match kvs with
  | [] => inr ""
  | (k, v) :: rest =>
      match marshal_value v, marshal_members rest with
      | inl err, _ => inl err
      | _, inl err => inl err
      | inr e, inr r =>
          inr (quote k +:+ ":" +:+ e +:+ (if rest is [] then "" else ",") +:+ r)
      end
  end.

Definition marshal (m : gmap string GoValue) : string + list byte :=
  match marshal_members (merge_sort key_le (map_to_list m)) with
  | inl err => inl err
  | inr e => inr (bytes_of ("{" +:+ e +:+ "}"))
  end.

(** [appendIndent] on the output of [marshal]. *)
Definition appendNewline (prefix indent : string) (depth : nat) : list byte :=
  [newline] ++ bytes_of prefix ++ concat (replicate depth (bytes_of indent)).

Fixpoint indent_loop (src : list byte) (prefix indent : string)
    (inString escaped needIndent : bool) (depth : nat) : list byte :=
  match src with
  | [] => []
  | c :: src' =>
      if inString then
        c :: indent_loop src' prefix indent
               (negb (negb escaped && Byte.eqb c x22))
               (negb escaped && Byte.eqb c x5c) needIndent depth
      else
        let closing := Byte.eqb c x7d || Byte.eqb c x5d in
        let pre := if needIndent && negb closing
                   then appendNewline prefix indent (S depth) else [] in
        let depth := if needIndent && negb closing then S depth else depth in
        if Byte.eqb c x22 then
          pre ++ c :: indent_loop src' prefix indent true false false depth
        else if Byte.eqb c x7b || Byte.eqb c x5b then
          pre ++ c :: indent_loop src' prefix indent false false true depth
        else if Byte.eqb c x2c then
          pre ++ c :: appendNewline prefix indent depth
              ++ indent_loop src' prefix indent false false false depth
        else if Byte.eqb c x3a then
          pre ++ c :: x20 :: indent_loop src' prefix indent false false false depth
        else if closing then
          if needIndent
          then c :: indent_loop src' prefix indent false false false depth
          else appendNewline prefix indent (pred depth)
                 ++ c :: indent_loop src' prefix indent false false false (pred depth)
        else
          pre ++ c :: indent_loop src' prefix indent false false false depth
  end.

#[export] Instance encodingJSON : EncodingJSON :=
  {| json_marshal := marshal;
     json_appendIndent src prefix indent :=
       inr (indent_loop src prefix indent false false false 0) |}.

(** *** net/url: scheme://userinfo@host/path?query#fragment and relative
    references; host, userinfo and fragment are kept as written. *)

Definition containsCTLByte (s : string) : bool :=
  bool_decide (Exists (λ c, (N_of_ascii c < 32)%N ∨ N_of_ascii c = 127%N)
                      (String.list_ascii_of_string s)).

(** [strings.Cut] on one byte. *)
Fixpoint cut (sep : ascii) (s : string) : string * option string :=
  match s with
  | EmptyString => (EmptyString, None)
  | String c s' =>
      if bool_decide (c = sep) then (EmptyString, Some s')
      else let '(before, after) := cut sep s' in (String c before, after)
  end.

Definition isLetter (c : ascii) : bool :=
  let n := N_of_ascii c in ((97 <=? n) && (n <=? 122) || (65 <=? n) && (n <=? 90))%N.

Definition toLower (s : string) : string :=
  String.string_of_list_ascii
    ((λ c, let n := N_of_ascii c in
           if ((65 <=? n) && (n <=? 90))%N then Ascii.ascii_of_N (n + 32) else c)
       <$> String.list_ascii_of_string s).

Fixpoint getScheme_loop (rawURL s : string) (i : nat) : string + (string * string) :=
  match s with
  | EmptyString => inr ("", rawURL)
  | String c s' =>
      if isLetter c then getScheme_loop rawURL s' (S i)
      else if is_byte c "0123456789+-." then
        if bool_decide (i = 0%nat) then inr ("", rawURL)
        else getScheme_loop rawURL s' (S i)
      else if bool_decide (c = ":"%char) then
        if bool_decide (i = 0%nat) then inl "missing protocol scheme"
        else inr (String.substring 0 i rawURL, s')
      else inr ("", rawURL)
  end.

Definition getScheme (rawURL : string) : string + (string * string) :=
  getScheme_loop rawURL rawURL 0.

Definition unhex (c : ascii) : option N :=
  let n := N_of_ascii c in
  if ((48 <=? n) && (n <=? 57))%N then Some (n - 48)%N
  else if ((97 <=? n) && (n <=? 102))%N then Some (n - 97 + 10)%N
  else if ((65 <=? n) && (n <=? 70))%N then Some (n - 65 + 10)%N
  else None.

Fixpoint unescape (s : string) : string + string :=
  match s with
  | EmptyString => inr EmptyString
  | String c s' =>
      if bool_decide (c = "%"%char) then
        match s' with
        | String a (String b s'') =>
            match unhex a, unhex b, unescape s'' with
            | Some h, Some l, inr r => inr (String (Ascii.ascii_of_N (16 * h + l)) r)
            | Some _, Some _, inl err => inl err
            | _, _, _ => inl "invalid URL escape"
            end
        | _ => inl "invalid URL escape"
        end
      else
        match unescape s' with
        | inl err => inl err
        | inr r => inr (String c r)
        end
  end.

Definition hasPrefix (pre s : string) : bool := String.prefix pre s.

Definition parse (rawURL : string) : string + url_URL :=
  if containsCTLByte rawURL then inl "net/url: invalid control character in URL"
  else
    let '(u, frag) := cut "#" rawURL in
    match getScheme u with
    | inl err => inl err
    | inr (scheme, rest) =>
        let scheme := toLower scheme in
        let '(rest, query) := cut "?" rest in
        let query := default "" query in
        let frag := default "" frag in
        if negb (hasPrefix "/" rest) && negb (bool_decide (scheme = "")) then
          inr {| Scheme := scheme; Opaque := rest; User := ""; Host := "";
                 Path := ""; RawPath := ""; RawQuery := query; Fragment := frag |}
        else if negb (hasPrefix "/" rest)
                && bool_decide (":"%char ∈ String.list_ascii_of_string (cut "/" rest).1)
        then inl "first path segment in URL cannot contain colon"
        else
          let '(authority, rest) :=
            if hasPrefix "//" rest
               && (negb (bool_decide (scheme = "")) || negb (hasPrefix "///" rest))
            then
              let a := String.substring 2 (String.length rest) rest in
              match cut "/" a with
              | (host, Some tail) => (host, "/" +:+ tail)
              | (host, None) => (host, "")
              end
            else ("", rest) in
          let '(user, host) :=
            match cut "@" (String.rev authority) with
            | (h, Some ui) => (String.rev ui, String.rev h)
            | (h, None) => ("", authority)
            end in
          match unescape rest with
          | inl err => inl err
          | inr path =>
              inr {| Scheme := scheme; Opaque := ""; User := user; Host := host;
                     Path := path;
                     RawPath := if bool_decide (escape path encodePath = rest)
                                then "" else rest;
                     RawQuery := query; Fragment := frag |}
          end
    end.

Definition EscapedPath (u : url_URL) : string :=
  if negb (bool_decide (RawPath u = ""))
     && bool_decide (unescape (RawPath u) = inr (Path u))
  then RawPath u
  else if bool_decide (Path u = "*") then "*"
  else escape (Path u) encodePath.

Definition String_ (u : url_URL) : string :=
  (if bool_decide (Scheme u = "") then "" else Scheme u +:+ ":") +:+
  (if negb (bool_decide (Opaque u = "")) then Opaque u
   else
     let head :=
       if negb (bool_decide (Scheme u = "")) || negb (bool_decide (Host u = ""))
          || negb (bool_decide (User u = ""))
       then
         (if negb (bool_decide (Host u = "")) || negb (bool_decide (Path u = ""))
             || negb (bool_decide (User u = ""))
          then "//" else "") +:+
         (if bool_decide (User u = "") then "" else User u +:+ "@") +:+ Host u
       else "" in
     let path := EscapedPath u in
     head +:+
     (if negb (bool_decide (path = "")) && negb (hasPrefix "/" path)
         && negb (bool_decide (Host u = ""))
      then "/" else "") +:+
     (if bool_decide (Scheme u = "") && bool_decide (head = "")
         && bool_decide (":"%char ∈ String.list_ascii_of_string (cut "/" path).1)
      then "./" else "") +:+
     path) +:+
  (if bool_decide (RawQuery u = "") then "" else "?" +:+ RawQuery u) +:+
  (if bool_decide (Fragment u = "") then "" else "#" +:+ Fragment u).

#[export] Instance netURL : NetURL := {| url_Parse := parse; URL_String := String_ |}.

(** *** html/template: text and [{{.Field}}] actions over a string map *)

Inductive segment : Type := Text (s : string) | Field (chain : list string).

Definition isIdent (name : string) : bool :=
  negb (bool_decide (name = ""))
  && bool_decide (Forall (λ c, isLetter c = true ∨ c ∈ String.list_ascii_of_string "0123456789_")
                         (String.list_ascii_of_string name)).

Fixpoint split_dots (s : string) (fuel : nat) : list string :=
  match fuel with
  | O => [s]
  | S fuel =>
      match cut "." s with
      | (name, Some rest) => name :: split_dots rest fuel
      | (name, None) => [name]
      end
  end.

Definition parse_action (txt : string) : string + segment :=
  match split_dots txt (String.length txt) with
  | "" :: chain =>
      if bool_decide (chain ≠ []) && forallb isIdent chain then inr (Field chain)
      else inl "template: default.tpl:1: unexpected token in command"
  | _ => inl "template: default.tpl:1: unexpected token in command"
  end.

Fixpoint parse_loop (s : string) (inAction : bool) (cur : string)
    (acc : list segment) : string + list segment :=
  match s with
  | EmptyString =>
      if inAction then inl "template: default.tpl:1: unclosed action"
      else inr (acc ++ [Text (String.rev cur)])
  | String c s' =>
      match s' with
      | String c' s'' =>
          if negb inAction && bool_decide (c = "{"%char) && bool_decide (c' = "{"%char)
          then parse_loop s'' true "" (acc ++ [Text (String.rev cur)])
          else if inAction && bool_decide (c = "}"%char) && bool_decide (c' = "}"%char)
          then match parse_action (String.rev cur) with
               | inl err => inl err
               | inr seg => parse_loop s'' false "" (acc ++ [seg])
               end
          else parse_loop s' inAction (String c cur) acc
      | EmptyString => parse_loop s' inAction (String c cur) acc
      end
  end.

Fixpoint htmlEscape (s : string) : string :=
  match s with
  | EmptyString => EmptyString
  | String c s' =>
      (if bool_decide (c = "&"%char) then "&amp;"
       else if bool_decide (c = "<"%char) then "&lt;"
       else if bool_decide (c = ">"%char) then "&gt;"
       else if bool_decide (c = "034"%char) then "&#34;"
       else if bool_decide (c = "'"%char) then "&#39;"
       else String c "") +:+ htmlEscape s'
  end.

Fixpoint execute (t : list segment) (data : gmap string string) : list byte * option string :=
  match t with
  | [] => ([], None)
  | Text s :: t' =>
      let '(out, err) := execute t' data in (bytes_of s ++ out, err)
  | Field [name] :: t' =>
      let '(out, err) := execute t' data in
      (bytes_of (htmlEscape (default "" (data !! name))) ++ out, err)
  | Field _ :: _ =>
      ([], Some "template: default.tpl: can't evaluate field in type string")
  end.

#[export] Instance htmlTemplate : HTMLTemplate :=
  {| Template := list segment;
     template_Parse _ text := parse_loop text false "" [];
     template_Execute := execute |}.

(** *** blackfriday: one paragraph of plain text *)
#[export] Instance blackfriday : Blackfriday :=
  {| MarkdownCommon md := bytes_of "<p>" ++ md ++ bytes_of ("</p>" +:+ lf) |}.

End Reference.

(** ** Vocabulary of the properties *)

(** The value of the last extension with the given key, in argument order. *)
Fixpoint last_ext (key : string) (extensions : list Extension) : option GoValue :=
  match extensions with
  | [] => None
  | extension :: rest =>
      match last_ext key rest with
      | Some v => Some v
      | None => if bool_decide (Key extension = key) then Some (Value extension) else None
      end
  end.

(** The wire behaviour both dispatch paths end with, for a given Problem. *)
Definition writeProblem `{EncodingJSON} (w : ResponseWriter) (status : Z)
    (problem : gmap string GoValue) : ResponseWriter :=
  let w := WriteHeader status w in
  let w := Header_Set "Content-Type" "application/problem+json; charset=utf-8" w in
  fst (Encode (SetIndent "" "  " (NewEncoder w)) problem).

(** The path of the documentation page of a title. *)
Definition doc_path (title : string) : string := "/" +:+ PathEscape title +:+ ".html".

(** The documentation URL of a title under a parsed base URL. *)
Definition joined `{NetURL} (base : url_URL) (title : string) : string :=
  URL_String (set_Path base (path_Join [Path base; doc_path title])).

(** The registry states a program can reach: a registry comes from [New] or
    is a zero [RFC7807] struct with its [URL] set, and only [HtmlDoc] (on
    which the other registrations end) changes it, whether it returns or
    panics. *)
Inductive reachable `{NetURL} `{EncodingJSON} : RFC7807 → Prop :=
  | reachable_New url : reachable (New url)
  | reachable_zero url :
      reachable {| URL := url; mux := None; problemHandlers := None |}
  | reachable_HtmlDoc rfc7807 title html h rfc7807' :
      reachable rfc7807 →
      HtmlDoc title html rfc7807 = Returned h rfc7807' →
      reachable rfc7807'
  | reachable_panic rfc7807 title html msg rfc7807' :
      reachable rfc7807 →
      HtmlDoc title html rfc7807 = Panicked msg rfc7807' →
      reachable rfc7807'.

(** The four ways to register a title. *)
Inductive Registration : Type :=
  | ByHtmlDoc (title : string) (html : list byte)
  | ByMarkdownDoc (title : string) (markdown : list byte)
  | ByTemplateDoc (title description templateStr : string)
  | ByDoc (title description : string).

Definition registered_title (reg : Registration) : string :=
  match reg with
  | ByHtmlDoc title _ | ByMarkdownDoc title _
  | ByTemplateDoc title _ _ | ByDoc title _ => title
  end.

Definition register `{HTMLTemplate} `{Blackfriday} `{NetURL} `{EncodingJSON}
    (reg : Registration) : M (option problemHandlerFunc * option string) :=
  match reg with
  | ByHtmlDoc title html => let* h := HtmlDoc title html in ret (h, None)
  | ByMarkdownDoc title markdown => let* h := MarkdownDoc title markdown in ret (h, None)
  | ByTemplateDoc title description templateStr => TemplateDoc title description templateStr
  | ByDoc title description => Doc title description
  end.

(** Rendering the template fails: its source does not parse, or it parses
    and its execution on the title and the description stops with an error. *)
Definition render_fails `{HTMLTemplate} (title description templateStr : string)
    (err : string) : Prop :=
  template_Parse "default.tpl" templateStr = inl err ∨
  ∃ template out,
    template_Parse "default.tpl" templateStr = inr template ∧
    template_Execute template
      (<["Title" := title]> (<["Description" := description]> ∅)) = (out, Some err).

(** The registry a run leaves behind. *)
Definition state_after {A} (m : M A) (rfc7807 : RFC7807) : RFC7807 :=
  match m rfc7807 with
  | Returned _ rfc7807' => rfc7807'
  | Panicked _ rfc7807' => rfc7807'
  end.

(** Writing expected JSON text without quote characters: an apostrophe
    stands for a double quote and a bar for a line feed. *)
Fixpoint json_text (s : string) : string :=
  match s with
  | EmptyString => EmptyString
  | String c s' =>
      String (if bool_decide (c = "'"%char) then "034"%char
              else if bool_decide (c = "|"%char) then "010"%char else c)
             (json_text s')
  end.

(** A path element that [path.Clean] keeps as it is: it has no slash and
    is longer than the two dots. *)
Definition kept_element (seg : string) : Prop :=
  Forall (λ c, c ≠ "/"%char) (String.list_ascii_of_string seg) ∧
  (2 < String.length seg)%nat.

(** The test [path.Clean] makes before it copies an element: whether a
    slash goes in front of it. *)
Definition needs_slash (rooted : bool) (out : list ascii) : bool :=
  rooted && negb (bool_decide (length out = 1%nat))
  || negb rooted && negb (bool_decide (length out = 0%nat)).

(** What the scan of a rooted path keeps at the bottom of its buffer. *)
Definition root_kept (rooted : bool) (out : list ascii) (dotdot : nat) : Prop :=
  rooted = true → dotdot = 1%nat ∧ ∃ top, out = top ++ ["/"%char].

(** * Properties *)

Section Properties.
Context `{!NetHTTP} `{!NetURL} `{!EncodingJSON} `{!HTMLTemplate} `{!Blackfriday}.

Implicit Types (w : ResponseWriter) (title detail key : string).
Implicit Types (status : Z) (extensions : list Extension) (html : list byte).
Implicit Types (problem : gmap string GoValue).

(** ** Merging the extensions *)

Lemma last_ext_app key before after :
  last_ext key (before ++ after) =
  match last_ext key after with
  | Some v => Some v
  | None => last_ext key before
  end.
Proof.
  induction before as [|e before IH]; simpl.
  - by destruct (last_ext key after).
  - rewrite IH. by destruct (last_ext key after).
Qed.

Lemma last_ext_None key extensions :
  last_ext key extensions = None ↔ Forall (λ e, Key e ≠ key) extensions.
Proof.
  induction extensions as [|e rest IH]; simpl.
  - split; [constructor | done].
  - destruct (last_ext key rest) as [v|] eqn:Hrest.
    + split; [done |]. intros Hall. apply Forall_cons in Hall as [_ Hall].
      apply IH in Hall. done.
    + case_bool_decide as Hk.
      * split; [done |]. intros Hall. by apply Forall_cons in Hall as [? _].
      * split; [| done]. intros _. constructor; [done | by apply IH].
Qed.

Lemma last_ext_last key v before after :
  Forall (λ e, Key e ≠ key) after →
  last_ext key (before ++ Ext key v :: after) = Some v.
Proof.
  intros Hafter. rewrite last_ext_app. simpl.
  apply last_ext_None in Hafter. rewrite Hafter.
  by rewrite bool_decide_eq_true_2.
Qed.

Lemma merge_lookup extensions problem key :
  foldl (λ problem extension, <[Key extension := Value extension]> problem)
        problem extensions !! key =
  match last_ext key extensions with
  | Some v => Some v
  | None => problem !! key
  end.
Proof.
  revert problem. induction extensions as [|e rest IH]; intros problem; simpl.
  - done.
  - rewrite IH. destruct (last_ext key rest); [done |].
    case_bool_decide as Hk.
    + subst key. by rewrite lookup_insert_eq.
    + by rewrite lookup_insert_ne.
Qed.

(** ** The response writer *)

Lemma Write_wroteHeader p w :
  wroteHeader (Write p w) =
  Some (default (StatusOK, handlerHeader w) (wroteHeader w)).
Proof.
  unfold Write, WriteHeader.
  destruct (wroteHeader w) eqn:Hw; simpl; by rewrite ?Hw.
Qed.

Lemma writeProblem_wroteHeader w status problem :
  wroteHeader w = None →
  wroteHeader (writeProblem w status problem) = Some (status, handlerHeader w).
Proof.
  intros Hw. unfold writeProblem, Encode, Write, WriteHeader. simpl.
  rewrite Hw. by destruct (encoded _ _ _).
Qed.

Lemma writeProblem_handlerHeader w status problem :
  handlerHeader (writeProblem w status problem) =
  <["Content-Type" := ["application/problem+json; charset=utf-8"]]> (handlerHeader w).
Proof.
  unfold writeProblem, Encode, WriteHeader, Write. simpl.
  destruct (encoded _ _ _); destruct (wroteHeader w) eqn:Hw; simpl;
    by rewrite ?Hw.
Qed.

Lemma writeProblem_written w status problem :
  written (writeProblem w status problem) =
  written w ++
  match encoded "" "  " problem with
  | inr b => b
  | inl _ => []
  end.
Proof.
  unfold writeProblem, Encode, WriteHeader, Write. simpl.
  destruct (encoded _ _ _); destruct (wroteHeader w) eqn:Hw; simpl;
    by rewrite ?Hw, ?app_nil_r.
Qed.

(** The header set after [WriteHeader] is not part of what was sent. *)
Lemma writeProblem_sentHeader w status problem :
  wroteHeader w = None →
  sentHeader (writeProblem w status problem) "Content-Type" =
  handlerHeader w !! "Content-Type".
Proof.
  intros Hw. unfold sentHeader. by rewrite writeProblem_wroteHeader.
Qed.

Lemma docHandler_spec html w r :
  wroteHeader w = None →
  wroteHeader (docHandler html w r) = Some (StatusOK, handlerHeader w) ∧
  written (docHandler html w r) = written w ++ html ∧
  handlerHeader (docHandler html w r) =
    <["Content-Type" := ["text/html; charset=utf-8"]]> (handlerHeader w).
Proof.
  intros Hw. unfold docHandler, Write, WriteHeader. rewrite Hw. simpl. done.
Qed.

(** ** The two dispatch paths write a Problem *)

Ltac listed := by repeat constructor.
Ltac unlisted :=
  let Hin := fresh in
  intros Hin; repeat (apply elem_of_cons in Hin as [Hin | Hin]; [done |]);
  by apply elem_of_nil in Hin.

Ltac lookup_written :=
  repeat (rewrite lookup_insert_ne by done); by rewrite lookup_insert_eq.

Lemma problemHandler_writes docURL title w status detail extensions :
  ∃ problem,
    problemHandler docURL title w status detail extensions
      = writeProblem w status problem ∧
    problem !! "type" = Some (VString docURL) ∧
    problem !! "title" = Some (VString title) ∧
    problem !! "status" = Some (VInt status) ∧
    problem !! "detail" = Some (VString detail) ∧
    ∀ key, key ∉ ["type"; "title"; "status"; "detail"] →
           problem !! key = last_ext key extensions.
Proof.
  eexists. split; [reflexivity |].
  repeat split; try lookup_written.
  intros key Hkey.
  rewrite !lookup_insert_ne by (intros <-; apply Hkey; listed).
  rewrite merge_lookup, lookup_empty. by destruct (last_ext key extensions).
Qed.

Lemma Error_registered (rfc7807 : RFC7807) handler w title status detail extensions :
  handlers rfc7807 !! title = Some handler →
  Error w title status detail extensions rfc7807
    = Returned (handler w status detail extensions) rfc7807.
Proof. intros Hh. unfold Error, bind, get, ret. cbv beta iota. by rewrite Hh. Qed.

Lemma Error_fallback (rfc7807 : RFC7807) w title status detail extensions :
  handlers rfc7807 !! title = None →
  ∃ problem,
    Error w title status detail extensions rfc7807
      = Returned (writeProblem w status problem) rfc7807 ∧
    problem !! "type" = last_ext "type" extensions ∧
    problem !! "title" =
      Some (VString (if bool_decide (title = "") then StatusText status else title)) ∧
    problem !! "status" = Some (VInt status) ∧
    problem !! "detail" = Some (VString detail) ∧
    ∀ key, key ∉ ["title"; "status"; "detail"] →
           problem !! key = last_ext key extensions.
Proof.
  intros Hh. eexists. split.
  { unfold Error, bind, get, ret. cbv beta iota. rewrite Hh. reflexivity. }
  assert (Hrest : ∀ key problem0, key ∉ ["title"; "status"; "detail"] →
            (<["detail" := VString detail]>
               (<["status" := VInt status]>
                  (<["title" := VString (if bool_decide (title = "")
                                         then StatusText status else title)]>
                     (foldl (λ problem extension,
                               <[Key extension := Value extension]> problem)
                            ∅ extensions)))) !! key = last_ext key extensions).
  { intros key _ Hkey.
    rewrite !lookup_insert_ne by (intros <-; apply Hkey; listed).
    rewrite merge_lookup, lookup_empty. by destruct (last_ext key extensions). }
  repeat split; try lookup_written.
  - apply (Hrest "type" ∅). unlisted.
  - intros key. apply (Hrest key ∅).
Qed.

(** ** What a registration does to the registry *)

Ltac run_HtmlDoc :=
  unfold HtmlDoc, mux_Get, set_mux, set_problemHandlers, bind, get, put, ret, panic,
    handlers, routes, Mux_Get, NewMux, doc_path, joined;
  simpl.

Lemma HtmlDoc_empty title (rfc7807 : RFC7807) :
  HtmlDoc title [] rfc7807 =
  Returned (Some (problemHandler "" title))
    {| URL := URL rfc7807;
       mux := Some (routes rfc7807);
       problemHandlers :=
         Some (<[title := problemHandler "" title]> (handlers rfc7807)) |}.
Proof.
  destruct rfc7807 as [url [m|] [hs|]]; run_HtmlDoc;
    by rewrite lookup_insert_eq.
Qed.

Lemma HtmlDoc_parsed title html (rfc7807 : RFC7807) base :
  html ≠ [] →
  url_Parse (URL rfc7807) = inr base →
  HtmlDoc title html rfc7807 =
  Returned (Some (problemHandler (joined base title) title))
    {| URL := URL rfc7807;
       mux := Some (<[doc_path title := docHandler html]> (routes rfc7807));
       problemHandlers :=
         Some (<[title := problemHandler (joined base title) title]>
                 (handlers rfc7807)) |}.
Proof.
  intros Hhtml Hparse. destruct html as [|b html]; [done |].
  destruct rfc7807 as [url [m|] [hs|]]; simpl in Hparse; run_HtmlDoc;
    rewrite Hparse; simpl; by rewrite lookup_insert_eq.
Qed.

Lemma HtmlDoc_unparsed title html (rfc7807 : RFC7807) err :
  html ≠ [] →
  url_Parse (URL rfc7807) = inl err →
  HtmlDoc title html rfc7807 =
  Panicked nil_dereference
    {| URL := URL rfc7807;
       mux := Some (<[doc_path title := docHandler html]> (routes rfc7807));
       problemHandlers := problemHandlers rfc7807 |}.
Proof.
  intros Hhtml Hparse. destruct html as [|b html]; [done |].
  destruct rfc7807 as [url [m|] [hs|]]; simpl in Hparse; run_HtmlDoc;
    by rewrite Hparse.
Qed.

(** Every run of [HtmlDoc] is one of the three above. *)
Lemma HtmlDoc_cases title html (rfc7807 : RFC7807) :
  (html = [] ∧ ∃ rfc7807',
     HtmlDoc title html rfc7807 = Returned (Some (problemHandler "" title)) rfc7807' ∧
     handlers rfc7807' = <[title := problemHandler "" title]> (handlers rfc7807) ∧
     routes rfc7807' = routes rfc7807 ∧ URL rfc7807' = URL rfc7807) ∨
  (html ≠ [] ∧ ∃ base rfc7807',
     url_Parse (URL rfc7807) = inr base ∧
     HtmlDoc title html rfc7807 =
       Returned (Some (problemHandler (joined base title) title)) rfc7807' ∧
     handlers rfc7807' =
       <[title := problemHandler (joined base title) title]> (handlers rfc7807) ∧
     routes rfc7807' = <[doc_path title := docHandler html]> (routes rfc7807) ∧
     URL rfc7807' = URL rfc7807) ∨
  (html ≠ [] ∧ ∃ err rfc7807',
     url_Parse (URL rfc7807) = inl err ∧
     HtmlDoc title html rfc7807 = Panicked nil_dereference rfc7807' ∧
     handlers rfc7807' = handlers rfc7807 ∧
     routes rfc7807' = <[doc_path title := docHandler html]> (routes rfc7807) ∧
     URL rfc7807' = URL rfc7807).
Proof.
  destruct (decide (html = [])) as [-> | Hhtml].
  - left. split; [done |]. eexists. split; [apply HtmlDoc_empty | done].
  - right. destruct (url_Parse (URL rfc7807)) as [err | base] eqn:Hparse.
    + right. split; [done |]. exists err. eexists.
      split; [done |]. split; [by apply (HtmlDoc_unparsed _ _ _ err) | done].
    + left. split; [done |]. exists base. eexists.
      split; [done |]. split; [by apply HtmlDoc_parsed | done].
Qed.

(** In a reachable registry every stored handler is a closure of [HtmlDoc]
    made for the title it is stored under. *)
Lemma reachable_handlers (rfc7807 : RFC7807) title handler :
  reachable rfc7807 →
  handlers rfc7807 !! title = Some handler →
  ∃ docURL, handler = problemHandler docURL title.
Proof.
  intros Hreach. revert title handler.
  induction Hreach as [url | url | r title0 html h r' _ IH Hrun
                      | r title0 html msg r' _ IH Hrun];
    intros title handler Hlook.
  - done.
  - done.
  - destruct (HtmlDoc_cases title0 html r)
      as [(_ & r1 & Hr & Hh & _) | [(_ & base & r1 & _ & Hr & Hh & _)
                                   | (_ & err & r1 & _ & Hr & _)]];
      rewrite Hr in Hrun; [| | done]; injection Hrun as _ <-;
      rewrite Hh in Hlook;
      (destruct (decide (title0 = title)) as [-> | Hne];
       [rewrite lookup_insert_eq in Hlook; injection Hlook as <-; eauto
       |rewrite lookup_insert_ne in Hlook by done; eauto]).
  - destruct (HtmlDoc_cases title0 html r)
      as [(_ & r1 & Hr & _) | [(_ & base & r1 & _ & Hr & _)
                              | (_ & err & r1 & _ & Hr & Hh & _)]];
      rewrite Hr in Hrun; [done | done |]; injection Hrun as _ <-.
    rewrite Hh in Hlook. eauto.
Qed.

Lemma register_runs_HtmlDoc reg (rfc7807 rfc7807' : RFC7807) h :
  register reg rfc7807 = Returned (h, None) rfc7807' →
  ∃ html, HtmlDoc (registered_title reg) html rfc7807 = Returned h rfc7807'.
Proof.
  destruct reg as [title html | title markdown | title description templateStr
                  | title description]; simpl.
  - unfold bind, ret. intros Hrun. exists html.
    destruct (HtmlDoc title html rfc7807); [| done]. by injection Hrun as -> ->.
  - unfold bind, ret, MarkdownDoc. intros Hrun. eexists.
    destruct (HtmlDoc title _ rfc7807) eqn:Hdoc; [| done].
    injection Hrun as -> ->. exact Hdoc.
  - unfold TemplateDoc.
    destruct (template_Parse _ _) as [tError | template]; [done |].
    destruct (template_Execute _ _) as [out [err|]]; [done |].
    unfold bind, ret. intros Hrun. eexists.
    destruct (HtmlDoc title _ rfc7807) eqn:Hdoc; [| done].
    injection Hrun as -> ->. exact Hdoc.
  - unfold Doc, TemplateDoc.
    destruct (template_Parse _ _) as [tError | template]; [done |].
    destruct (template_Execute _ _) as [out [err|]]; [done |].
    unfold bind, ret. intros Hrun. eexists.
    destruct (HtmlDoc title _ rfc7807) eqn:Hdoc; [| done].
    injection Hrun as -> ->. exact Hdoc.
Qed.

Lemma ServeHTTP_route (rfc7807 : RFC7807) (m : gmap string (ResponseWriter → Request → ResponseWriter))
    handler aWriter path :
  mux rfc7807 = Some m →
  m !! path = Some handler →
  ServeHTTP aWriter {| Method := "GET"; RequestPath := path |} rfc7807
    = Returned (handler aWriter {| Method := "GET"; RequestPath := path |}) rfc7807.
Proof.
  intros Hmux Hroute.
  unfold ServeHTTP, bind, get, ret, panic, Mux_ServeHTTP. cbv beta iota.
  rewrite Hmux. cbn [RequestPath Method].
  rewrite bool_decide_eq_false_2.
  - by rewrite Hroute.
  - intros Hdom. apply dom_empty_iff_L in Hdom. by rewrite Hdom in Hroute.
Qed.

Lemma ServeHTTP_doc_page title html (rfc7807 rfc7807' : RFC7807) h w :
  html ≠ [] →
  HtmlDoc title html rfc7807 = Returned h rfc7807' →
  ServeHTTP w {| Method := "GET"; RequestPath := doc_path title |} rfc7807'
    = Returned (docHandler html w {| Method := "GET"; RequestPath := doc_path title |})
               rfc7807'.
Proof.
  intros Hhtml Hrun.
  destruct (url_Parse (URL rfc7807)) as [err | base] eqn:Hparse.
  - by rewrite (HtmlDoc_unparsed _ _ _ err) in Hrun.
  - rewrite (HtmlDoc_parsed _ _ _ base) in Hrun by done.
    injection Hrun as _ <-.
    eapply ServeHTTP_route; [done |]. apply lookup_insert_eq.
Qed.

Lemma Error_writes (rfc7807 : RFC7807) w title status detail extensions :
  reachable rfc7807 →
  ∃ problem,
    Error w title status detail extensions rfc7807
      = Returned (writeProblem w status problem) rfc7807.
Proof.
  intros Hreach.
  destruct (handlers rfc7807 !! title) as [handler|] eqn:Hlook.
  - destruct (reachable_handlers _ _ _ Hreach Hlook) as [docURL ->].
    destruct (problemHandler_writes docURL title w status detail extensions)
      as (problem & Hw & _).
    exists problem. by rewrite (Error_registered _ _ _ _ _ _ _ Hlook), Hw.
  - destruct (Error_fallback _ w title status detail extensions Hlook)
      as (problem & Hw & _).
    by exists problem.
Qed.

(** Both dispatch paths set the Content-Type after [WriteHeader]: what a
    fresh writer sends is the given status and the headers it had before. *)
Lemma dispatch_sends (rfc7807 : RFC7807) w title status detail extensions :
  reachable rfc7807 →
  wroteHeader w = None →
  ∃ w',
    Error w title status detail extensions rfc7807 = Returned w' rfc7807 ∧
    wroteHeader w' = Some (status, handlerHeader w) ∧
    handlerHeader w' =
      <["Content-Type" := ["application/problem+json; charset=utf-8"]]> (handlerHeader w).
Proof.
  intros Hreach Hfresh.
  destruct (Error_writes rfc7807 w title status detail extensions Hreach)
    as (problem & ->).
  eexists. split; [done |].
  by rewrite writeProblem_wroteHeader, writeProblem_handlerHeader.
Qed.

(** ** The claims *)

(** C1 (amended): on the registered path all four reserved keys of the
    Problem hold the values the system computes, whatever the extensions
    say, because the closure writes them after merging the extensions; on
    the fallback path of [Error] the same holds for title, status and
    detail, while type is not written there and keeps the value of the last
    extension with that key, if any. *)
Theorem reserved_keys_written_last (rfc7807 : RFC7807) w title status detail extensions :
  reachable rfc7807 →
  ∃ problem,
    Error w title status detail extensions rfc7807
      = Returned (writeProblem w status problem) rfc7807 ∧
    problem !! "status" = Some (VInt status) ∧
    problem !! "detail" = Some (VString detail) ∧
    match handlers rfc7807 !! title with
    | Some handler =>
        ∃ docURL,
          handler = problemHandler docURL title ∧
          problem !! "type" = Some (VString docURL) ∧
          problem !! "title" = Some (VString title)
    | None =>
        problem !! "title" =
          Some (VString (if bool_decide (title = "") then StatusText status else title)) ∧
        problem !! "type" = last_ext "type" extensions
    end.
Proof.
  intros Hreach.
  destruct (handlers rfc7807 !! title) as [handler|] eqn:Hlook.
  - destruct (reachable_handlers _ _ _ Hreach Hlook) as [docURL ->].
    destruct (problemHandler_writes docURL title w status detail extensions)
      as (problem & Hw & Htype & Htitle & Hstatus & Hdetail & _).
    exists problem. rewrite (Error_registered _ _ _ _ _ _ _ Hlook), Hw.
    eauto 10.
  - destruct (Error_fallback _ w title status detail extensions Hlook)
      as (problem & Hw & Htype & Htitle & Hstatus & Hdetail & _).
    exists problem. eauto 10.
Qed.


(** C4: after two successive registrations of a title, [Error] runs the
    closure the second registration stored and returned; the type it emits
    is the documentation URL of the second registration, computed from the
    registry as the second registration found it. *)
Theorem last_registration_wins reg1 reg2 (rfc7807 rfc1 rfc2 : RFC7807) h1 h2
    title w status detail extensions :
  registered_title reg1 = title →
  registered_title reg2 = title →
  register reg1 rfc7807 = Returned (h1, None) rfc1 →
  register reg2 rfc1 = Returned (h2, None) rfc2 →
  ∃ docURL problem,
    h2 = Some (problemHandler docURL title) ∧
    handlers rfc2 !! title = h2 ∧
    (docURL = "" ∨ ∃ base, url_Parse (URL rfc1) = inr base ∧ docURL = joined base title) ∧
    Error w title status detail extensions rfc2
      = Returned (problemHandler docURL title w status detail extensions) rfc2 ∧
    problemHandler docURL title w status detail extensions
      = writeProblem w status problem ∧
    problem !! "type" = Some (VString docURL).
Proof.
  intros Ht1 Ht2 _ Hrun.
  apply register_runs_HtmlDoc in Hrun as [html Hrun]. rewrite Ht2 in Hrun.
  assert (∃ docURL, h2 = Some (problemHandler docURL title) ∧
            handlers rfc2 !! title = h2 ∧
            (docURL = "" ∨ ∃ base, url_Parse (URL rfc1) = inr base
                                   ∧ docURL = joined base title))
    as (docURL & -> & Hlook & Hurl).
  { destruct (HtmlDoc_cases title html rfc1)
      as [(_ & r & Hr & Hh & _) | [(_ & base & r & Hparse & Hr & Hh & _)
                                  | (_ & err & r & _ & Hr & _)]];
      rewrite Hr in Hrun; [| | done]; injection Hrun as <- <-;
      eexists; (split; [reflexivity |]); rewrite Hh, lookup_insert_eq;
      (split; [done |]); eauto. }
  destruct (problemHandler_writes docURL title w status detail extensions)
    as (problem & Hw & Htype & _).
  exists docURL, problem. repeat split; try done.
  by apply Error_registered.
Qed.


(** C6: when the template source fails to parse or fails to execute,
    [TemplateDoc] returns a nil handler and the error and leaves the
    registry as it was: no closure stored under the title, no route
    installed; so does [Doc], which renders the default template. *)
Theorem TemplateDoc_error_leaves_registry title description templateStr
    (rfc7807 : RFC7807) err :
  (render_fails title description templateStr err →
     TemplateDoc title description templateStr rfc7807
       = Returned (None, Some err) rfc7807) ∧
  (render_fails title description DefaultTemplate err →
     Doc title description rfc7807 = Returned (None, Some err) rfc7807).
Proof.
  assert (∀ source, render_fails title description source err →
            TemplateDoc title description source rfc7807
              = Returned (None, Some err) rfc7807) as Hrun.
  { intros source Hfail. unfold TemplateDoc.
    destruct Hfail as [-> | (template & out & -> & ->)]; done. }
  split; [apply Hrun |]. intros Hfail. unfold Doc. by apply Hrun.
Qed.

(** C8 (amended): a key that the system does not write itself (any key but
    title, status, detail and, on the registered path, type) is mapped by
    the Problem to the value of the last extension with that key in
    argument order. *)
Theorem extensions_last_entry_wins (rfc7807 : RFC7807) w title status detail
    extensions before after key v :
  reachable rfc7807 →
  extensions = before ++ Ext key v :: after →
  Forall (λ e, Key e ≠ key) after →
  key ∉ ["title"; "status"; "detail"] →
  (is_Some (handlers rfc7807 !! title) → key ≠ "type") →
  ∃ problem,
    Error w title status detail extensions rfc7807
      = Returned (writeProblem w status problem) rfc7807 ∧
    problem !! key = Some v.
Proof.
  intros Hreach -> Hafter Hkey Htype.
  destruct (handlers rfc7807 !! title) as [handler|] eqn:Hlook.
  - destruct (reachable_handlers _ _ _ Hreach Hlook) as [docURL ->].
    destruct (problemHandler_writes docURL title w status detail
                (before ++ Ext key v :: after))
      as (problem & Hw & _ & _ & _ & _ & Hrest).
    exists problem. rewrite (Error_registered _ _ _ _ _ _ _ Hlook), Hw.
    split; [done |]. rewrite Hrest, last_ext_last; [done | done |].
    intros Hin. apply elem_of_cons in Hin as [-> | Hin]; [| done].
    by apply Htype.
  - destruct (Error_fallback _ w title status detail
                (before ++ Ext key v :: after) Hlook)
      as (problem & Hw & _ & _ & _ & _ & Hrest).
    exists problem. split; [done |]. by rewrite Hrest, last_ext_last.
Qed.

(** C9: [Error] returns with the registry it was called on: base URL, route
    table and handlers map are the same before and after, on both paths. *)
Theorem Error_leaves_registry (rfc7807 : RFC7807) w title status detail extensions :
  ∃ w' rfc7807',
    Error w title status detail extensions rfc7807 = Returned w' rfc7807' ∧
    URL rfc7807' = URL rfc7807 ∧
    mux rfc7807' = mux rfc7807 ∧
    problemHandlers rfc7807' = problemHandlers rfc7807.
Proof.
  destruct (handlers rfc7807 !! title) as [handler|] eqn:Hlook.
  - eexists _, rfc7807. by rewrite (Error_registered _ _ _ _ _ _ _ Hlook).
  - destruct (Error_fallback _ w title status detail extensions Hlook)
      as (problem & -> & _).
    by eexists _, rfc7807.
Qed.

(** C10: on a registry made by [New] from a base URL that [url.Parse]
    rejects, registering a title with non-empty content panics with a nil
    dereference: the route is already installed, no handler is stored and
    nothing is returned. *)
Theorem HtmlDoc_panics_on_rejected_URL url err title html :
  url_Parse url = inl err →
  html ≠ [] →
  ∃ rfc7807',
    HtmlDoc title html (New url) = Panicked nil_dereference rfc7807' ∧
    routes rfc7807' = {[ doc_path title := docHandler html ]} ∧
    handlers rfc7807' = ∅.
Proof.
  intros Hparse Hhtml. eexists.
  split; [by apply (HtmlDoc_unparsed _ _ _ err) |]. done.
Qed.

(** C2: the code sets the Content-Type after [WriteHeader].  On a fresh
    writer, for the title NotFound, status 404 and detail no such user, the
    registered closure and the fallback both send the status 404 without a
    Content-Type header; the header only reaches the handler's map. *)
Theorem Error_sets_Content_Type_after_WriteHeader base :
  ∃ registered w1 w2,
    HtmlDoc "NotFound" [] (New base)
      = Returned (Some (problemHandler "" "NotFound")) registered ∧
    Error newResponseWriter "NotFound" 404 "no such user" [] registered
      = Returned w1 registered ∧
    Error newResponseWriter "NotFound" 404 "no such user" [] (New base)
      = Returned w2 (New base) ∧
    sentStatus w1 = Some 404 ∧ sentStatus w2 = Some 404 ∧
    sentHeader w1 "Content-Type" = None ∧
    sentHeader w2 "Content-Type" = None ∧
    handlerHeader w1 !! "Content-Type"
      = Some ["application/problem+json; charset=utf-8"] ∧
    handlerHeader w2 !! "Content-Type"
      = Some ["application/problem+json; charset=utf-8"].
Proof.
  assert (reachable (New base)) as Hnew by constructor.
  pose proof (HtmlDoc_empty "NotFound" (New base)) as Hrun.
  pose proof (reachable_HtmlDoc _ _ _ _ _ Hnew Hrun) as Hreg.
  destruct (dispatch_sends _ newResponseWriter "NotFound" 404 "no such user" []
              Hreg eq_refl) as (w1 & Hw1 & Hsent1 & Hmap1).
  destruct (dispatch_sends _ newResponseWriter "NotFound" 404 "no such user" []
              Hnew eq_refl) as (w2 & Hw2 & Hsent2 & Hmap2).
  eexists _, w1, w2. split; [exact Hrun |].
  split; [exact Hw1 |]. split; [exact Hw2 |].
  unfold sentStatus, sentHeader. rewrite Hsent1, Hsent2, Hmap1, Hmap2. simpl.
  by rewrite !lookup_insert_eq.
Qed.

(** ** Further properties of registration and dispatch *)


(** X2: after a registration with non-empty content, a GET on the path of
    the title, on a writer whose header is not written yet, sends the status
    200 and writes the registered bytes unchanged. *)
Theorem doc_page_status_and_body title html (rfc7807 rfc7807' : RFC7807) h w :
  html ≠ [] →
  HtmlDoc title html rfc7807 = Returned h rfc7807' →
  wroteHeader w = None →
  ∃ w',
    ServeHTTP w {| Method := "GET"; RequestPath := doc_path title |} rfc7807'
      = Returned w' rfc7807' ∧
    sentStatus w' = Some 200 ∧
    written w' = written w ++ html.
Proof.
  intros Hhtml Hrun Hfresh. eexists.
  split; [by apply (ServeHTTP_doc_page title html rfc7807 rfc7807' h) |].
  destruct (docHandler_spec html w
              {| Method := "GET"; RequestPath := doc_path title |} Hfresh)
    as (Hsent & Hbody & _).
  unfold sentStatus. by rewrite Hsent, Hbody.
Qed.

(** X3: a dispatch for a title right after its registration emits the title
    and, as type, the documentation URL computed at the registration: empty
    without content, the joined base URL with content. *)
Theorem dispatch_after_registration title html (rfc7807 rfc7807' : RFC7807) h
    w status detail extensions :
  HtmlDoc title html rfc7807 = Returned h rfc7807' →
  ∃ docURL problem,
    h = Some (problemHandler docURL title) ∧
    Error w title status detail extensions rfc7807'
      = Returned (writeProblem w status problem) rfc7807' ∧
    problem !! "type" = Some (VString docURL) ∧
    problem !! "title" = Some (VString title) ∧
    (html = [] → docURL = "") ∧
    (html ≠ [] → ∃ base, url_Parse (URL rfc7807) = inr base
                         ∧ docURL = joined base title).
Proof.
  intros Hrun.
  assert (∃ docURL, h = Some (problemHandler docURL title) ∧
            handlers rfc7807' !! title = h ∧
            (html = [] → docURL = "") ∧
            (html ≠ [] → ∃ base, url_Parse (URL rfc7807) = inr base
                                 ∧ docURL = joined base title))
    as (docURL & -> & Hlook & Hempty & Hfull).
  { destruct (HtmlDoc_cases title html rfc7807)
      as [(Hhtml & r & Hr & Hh & _) | [(Hhtml & base & r & Hparse & Hr & Hh & _)
                                      | (_ & err & r & _ & Hr & _)]];
      rewrite Hr in Hrun; [| | done]; injection Hrun as <- <-;
      eexists; (split; [reflexivity |]); rewrite Hh, lookup_insert_eq;
      (split; [done |]); split; try done; eauto. }
  destruct (problemHandler_writes docURL title w status detail extensions)
    as (problem & Hw & Htype & Htitle & _).
  exists docURL, problem. repeat split; try done.
  by rewrite (Error_registered _ _ _ _ _ _ _ Hlook), Hw.
Qed.


(** X4: a registration leaves the base URL and the handlers of all other
    titles as they were, and removes no route. *)
Theorem registration_frame title html (rfc7807 rfc7807' : RFC7807) h :
  HtmlDoc title html rfc7807 = Returned h rfc7807' →
  URL rfc7807' = URL rfc7807 ∧
  (∀ title', title' ≠ title →
     handlers rfc7807' !! title' = handlers rfc7807 !! title') ∧
  (∀ p, p ≠ doc_path title → routes rfc7807' !! p = routes rfc7807 !! p).
Proof.
  intros Hrun.
  destruct (HtmlDoc_cases title html rfc7807)
    as [(_ & r & Hr & Hh & Hroutes & Hurl)
       | [(_ & base & r & _ & Hr & Hh & Hroutes & Hurl)
         | (_ & err & r & _ & Hr & _)]];
    rewrite Hr in Hrun; [| | done]; injection Hrun as _ <-;
    (split; [done |]); rewrite Hh, Hroutes;
    (split; [intros title' Hne; by rewrite lookup_insert_ne |]);
    intros p Hp; [done | by rewrite lookup_insert_ne].
Qed.

(** ** Panics, zero values and failed registrations *)

Lemma HtmlDoc_leaves_mux title html (rfc7807 rfc7807' : RFC7807) :
  (∃ h, HtmlDoc title html rfc7807 = Returned h rfc7807') ∨
  (∃ msg, HtmlDoc title html rfc7807 = Panicked msg rfc7807') →
  mux rfc7807' = Some (routes rfc7807') ∧
  URL rfc7807' = URL rfc7807.
Proof.
  intros Hrun.
  destruct (decide (html = [])) as [-> | Hhtml].
  - rewrite HtmlDoc_empty in Hrun.
    destruct Hrun as [[h Hrun] | [msg Hrun]]; [| done]. by injection Hrun as _ <-.
  - destruct (url_Parse (URL rfc7807)) as [err | base] eqn:Hparse.
    + rewrite (HtmlDoc_unparsed _ _ _ err) in Hrun by done.
      destruct Hrun as [[h Hrun] | [msg Hrun]]; [done |]. by injection Hrun as _ <-.
    + rewrite (HtmlDoc_parsed _ _ _ base) in Hrun by done.
      destruct Hrun as [[h Hrun] | [msg Hrun]]; [| done]. by injection Hrun as _ <-.
Qed.

Lemma Error_reads_handlers (rfc7807 rfc7807' : RFC7807) w title status detail extensions :
  handlers rfc7807' = handlers rfc7807 →
  ∃ w',
    Error w title status detail extensions rfc7807 = Returned w' rfc7807 ∧
    Error w title status detail extensions rfc7807' = Returned w' rfc7807'.
Proof.
  intros Hsame. unfold Error, bind, get, ret. cbv beta iota. rewrite Hsame.
  destruct (handlers rfc7807 !! title); eexists; split; reflexivity.
Qed.

(** X6: a registration panics exactly when it has content to publish and
    [url.Parse] rejects the base URL of the registry; without content the
    base URL is never parsed. *)
Theorem HtmlDoc_panics_iff title html (rfc7807 : RFC7807) :
  (∃ msg rfc7807', HtmlDoc title html rfc7807 = Panicked msg rfc7807') ↔
  html ≠ [] ∧ ∃ err, url_Parse (URL rfc7807) = inl err.
Proof.
  split.
  - intros (msg & r' & Hrun).
    destruct (HtmlDoc_cases title html rfc7807)
      as [(_ & r & Hr & _) | [(_ & base & r & _ & Hr & _)
                              | (Hhtml & err & r & Hparse & _)]];
      [by rewrite Hr in Hrun | by rewrite Hr in Hrun | eauto].
  - intros (Hhtml & err & Hparse). eexists _, _.
    by apply (HtmlDoc_unparsed _ _ _ err).
Qed.

(** X7: a zero [RFC7807] struct with its URL set behaves like the registry
    [New] makes from that URL: a first registration that returns gives the
    same handler and the same registry, one that panics leaves the same
    routes and handlers, and a dispatch writes the same response. *)
Theorem zero_value_behaves_like_New url title html w status detail extensions :
  match HtmlDoc title html {| URL := url; mux := None; problemHandlers := None |},
        HtmlDoc title html (New url) with
  | Returned h r, Returned h' r' => h = h' ∧ r = r'
  | Panicked msg r, Panicked msg' r' =>
      msg = msg' ∧ URL r = URL r' ∧ routes r = routes r' ∧ handlers r = handlers r'
  | _, _ => False
  end ∧
  ∃ w',
    Error w title status detail extensions
          {| URL := url; mux := None; problemHandlers := None |}
      = Returned w' {| URL := url; mux := None; problemHandlers := None |} ∧
    Error w title status detail extensions (New url) = Returned w' (New url).
Proof.
  split.
  - destruct (decide (html = [])) as [-> | Hhtml].
    + by rewrite !HtmlDoc_empty.
    + destruct (url_Parse url) as [err | base] eqn:Hparse.
      * by rewrite (HtmlDoc_unparsed title html (New url) err Hhtml Hparse),
          (HtmlDoc_unparsed title html
             {| URL := url; mux := None; problemHandlers := None |} err Hhtml Hparse).
      * by rewrite (HtmlDoc_parsed title html (New url) base Hhtml Hparse),
          (HtmlDoc_parsed title html
             {| URL := url; mux := None; problemHandlers := None |} base Hhtml Hparse).
  - destruct (Error_reads_handlers (New url)
                {| URL := url; mux := None; problemHandlers := None |}
                w title status detail extensions eq_refl) as (w' & Hnew & Hzero).
    eauto.
Qed.


(** X9: a registration that panics leaves every dispatch as it was, for
    every title, and has already published its page. *)
Theorem failed_registration_keeps_dispatch title html (rfc7807 rfc7807' : RFC7807) msg
    w title' status detail extensions :
  HtmlDoc title html rfc7807 = Panicked msg rfc7807' →
  routes rfc7807' !! doc_path title = Some (docHandler html) ∧
  ∃ w',
    Error w title' status detail extensions rfc7807 = Returned w' rfc7807 ∧
    Error w title' status detail extensions rfc7807' = Returned w' rfc7807'.
Proof.
  intros Hrun.
  destruct (HtmlDoc_cases title html rfc7807)
    as [(_ & r & Hr & _) | [(_ & base & r & _ & Hr & _)
                            | (_ & err & r & _ & Hr & Hh & Hroutes & _)]];
    rewrite Hr in Hrun; [done | done |]. injection Hrun as _ <-.
  split; [by rewrite Hroutes, lookup_insert_eq |].
  by apply Error_reads_handlers.
Qed.

(** X10: whenever [TemplateDoc] returns, exactly one of the handler and the
    error is nil: with an error the handler is nil and the registry is
    untouched; without one the handler is the closure now stored under the
    title. *)
Theorem TemplateDoc_result_contract title description templateStr
    (rfc7807 rfc7807' : RFC7807) h err :
  TemplateDoc title description templateStr rfc7807 = Returned (h, err) rfc7807' →
  (h = None ∧ is_Some err ∧ rfc7807' = rfc7807) ∨
  (err = None ∧ is_Some h ∧ handlers rfc7807' !! title = h).
Proof.
  unfold TemplateDoc.
  destruct (template_Parse _ _) as [tError | template].
  - intros Hrun. injection Hrun as <- <- <-. left. eauto.
  - destruct (template_Execute _ _) as [out [e|]].
    + intros Hrun. injection Hrun as <- <- <-. left. eauto.
    + unfold bind, ret. simpl.
      destruct (HtmlDoc_cases title out rfc7807)
        as [(_ & r & Hr & Hh & _) | [(_ & base & r & _ & Hr & Hh & _)
                                    | (_ & e & r & _ & Hr & _)]];
        rewrite Hr; [| | done]; intros Hrun; injection Hrun as <- <- <-;
        right; rewrite Hh, lookup_insert_eq; eauto.
Qed.

(** ** Pages, keys and invariants *)

(** X11: [MarkdownDoc] always has a page to publish, around any Markdown
    source, the empty one included: with a base URL that parses it installs
    the page, made of fixed text around the title and the rendered source,
    and stores a closure with the joined documentation URL; with one that is
    rejected it panics and stores no handler. *)
Theorem MarkdownDoc_always_publishes :
  ∃ pre mid post : list byte,
    pre ≠ [] ∧
    ∀ title markdown (rfc7807 : RFC7807),
      let page := pre ++ bytes_of title ++ mid ++ MarkdownCommon markdown ++ post in
      (∀ base, url_Parse (URL rfc7807) = inr base →
         ∃ rfc7807',
           MarkdownDoc title markdown rfc7807
             = Returned (Some (problemHandler (joined base title) title)) rfc7807' ∧
           routes rfc7807' !! doc_path title = Some (docHandler page) ∧
           handlers rfc7807' !! title
             = Some (problemHandler (joined base title) title)) ∧
      (∀ err, url_Parse (URL rfc7807) = inl err →
         ∃ rfc7807',
           MarkdownDoc title markdown rfc7807 = Panicked nil_dereference rfc7807' ∧
           handlers rfc7807' = handlers rfc7807).
Proof.
  exists (bytes_of ("<html>\n<head>\n  <meta charset=" +:+ dquote +:+ "utf-8"
                    +:+ dquote +:+ ">\n  <title>Error ")),
         (bytes_of "</title>\n</head>\n<body>"),
         (bytes_of "</body>\n</html>").
  split; [by vm_compute |].
  intros title markdown rfc7807 page.
  assert (MarkdownDoc title markdown rfc7807 = HtmlDoc title page rfc7807) as ->.
  { unfold MarkdownDoc, page. cbv zeta. by rewrite app_nil_l, <- !app_assoc. }
  assert (page ≠ []) as Hpage.
  { unfold page. intros Hnil. apply app_eq_nil in Hnil as [Hnil _].
    by vm_compute in Hnil. }
  destruct (HtmlDoc_cases title page rfc7807)
    as [(Hempty & _) | [(_ & base' & r & Hparse' & Hr & Hh & Hroutes & _)
                       | (_ & err' & r & Hparse' & Hr & Hh & _)]];
    [done | |]; split.
  - intros base Hparse. rewrite Hparse in Hparse'. injection Hparse' as <-.
    exists r. by rewrite Hr, Hh, Hroutes, !lookup_insert_eq.
  - intros err Hparse. by rewrite Hparse in Hparse'.
  - intros base Hparse. by rewrite Hparse in Hparse'.
  - intros err Hparse. exists r. by rewrite Hr, Hh.
Qed.

(** X12: registering a title again replaces its page when the new
    registration has content; when it has none the old page stays served
    although the closure now stored emits an empty type. *)
Theorem reregistration_page title html1 html2 (rfc7807 rfc1 rfc2 : RFC7807) h1 h2
    aWriter :
  html1 ≠ [] →
  HtmlDoc title html1 rfc7807 = Returned h1 rfc1 →
  HtmlDoc title html2 rfc1 = Returned h2 rfc2 →
  let aRequest := {| Method := "GET"; RequestPath := doc_path title |} in
  ServeHTTP aWriter aRequest rfc2
    = Returned (docHandler (if decide (html2 = []) then html1 else html2)
                           aWriter aRequest) rfc2 ∧
  (html2 = [] → h2 = Some (problemHandler "" title)).
Proof.
  intros Hhtml1 Hrun1 Hrun2 aRequest.
  assert (routes rfc1 !! doc_path title = Some (docHandler html1)) as Hroute1.
  { destruct (HtmlDoc_cases title html1 rfc7807)
      as [(Hempty & _) | [(_ & base & r & _ & Hr & _ & Hroutes & _)
                         | (_ & err & r & _ & Hr & _)]];
      [done | | by rewrite Hr in Hrun1].
    rewrite Hr in Hrun1. injection Hrun1 as _ <-.
    by rewrite Hroutes, lookup_insert_eq. }
  destruct (HtmlDoc_leaves_mux title html2 rfc1 rfc2) as [Hmux _]; [eauto |].
  assert (routes rfc2 !! doc_path title
          = Some (docHandler (if decide (html2 = []) then html1 else html2))
          ∧ (html2 = [] → h2 = Some (problemHandler "" title))) as [Hroute2 Hh2].
  { destruct (HtmlDoc_cases title html2 rfc1)
      as [(Hempty & r & Hr & _ & Hroutes & _)
         | [(Hfull & base & r & _ & Hr & _ & Hroutes & _)
           | (_ & err & r & _ & Hr & _)]];
      [| | by rewrite Hr in Hrun2];
      rewrite Hr in Hrun2; injection Hrun2 as <- <-; rewrite Hroutes.
    - by rewrite decide_True.
    - by rewrite decide_False, lookup_insert_eq. }
  split; [| done].
  by apply (ServeHTTP_route rfc2 (routes rfc2)).
Qed.

Lemma merge_dom extensions problem :
  dom (foldl (λ problem extension, <[Key extension := Value extension]> problem)
             problem extensions)
  = dom problem ∪ list_to_set (Key <$> extensions).
Proof.
  revert problem. induction extensions as [|e rest IH]; intros problem; simpl.
  - by rewrite union_empty_r_L.
  - rewrite IH, dom_insert_L. set_solver.
Qed.

(** X13: the Problem a dispatch serializes has exactly the keys of the
    extensions together with title, status and detail, and type on the
    registered path only. *)
Theorem problem_keys (rfc7807 : RFC7807) w title status detail extensions :
  reachable rfc7807 →
  ∃ problem,
    Error w title status detail extensions rfc7807
      = Returned (writeProblem w status problem) rfc7807 ∧
    dom problem =
      match handlers rfc7807 !! title with
      | Some _ => {["type"]}
      | None => ∅
      end
      ∪ {["title"; "status"; "detail"]}
      ∪ list_to_set (Key <$> extensions).
Proof.
  intros Hreach.
  destruct (handlers rfc7807 !! title) as [handler|] eqn:Hlook.
  - destruct (reachable_handlers _ _ _ Hreach Hlook) as [docURL ->].
    eexists. split.
    + rewrite (Error_registered _ _ _ _ _ _ _ Hlook). reflexivity.
    + rewrite !dom_insert_L, merge_dom, dom_empty_L. set_solver.
  - eexists. split.
    + unfold Error, bind, get, ret. cbv beta iota. rewrite Hlook. reflexivity.
    + rewrite !dom_insert_L, merge_dom, dom_empty_L. set_solver.
Qed.

(** X14: in every reachable registry each route is the documentation path
    of some title and serves non-empty content, and each stored handler is
    the closure of its own title whose documentation URL is either empty or
    the joined base URL of the registry with the page of that title
    installed. *)
Theorem registry_invariant (rfc7807 : RFC7807) :
  reachable rfc7807 →
  (∀ p handler, routes rfc7807 !! p = Some handler →
     ∃ title html, html ≠ [] ∧ p = doc_path title ∧ handler = docHandler html) ∧
  (∀ title handler, handlers rfc7807 !! title = Some handler →
     ∃ docURL, handler = problemHandler docURL title ∧
       (docURL = "" ∨
        (is_Some (routes rfc7807 !! doc_path title) ∧
         ∃ base, url_Parse (URL rfc7807) = inr base ∧ docURL = joined base title))).
Proof.
  intros Hreach.
  induction Hreach as [url | url | r title0 html h r' _ [IHr IHh] Hrun
                      | r title0 html msg r' _ [IHr IHh] Hrun].
  - split; intros ? ? Hlook; done.
  - split; intros ? ? Hlook; done.
  - destruct (HtmlDoc_cases title0 html r)
      as [(_ & r1 & Hr & Hh & Hroutes & Hurl)
         | [(Hhtml & base & r1 & Hparse & Hr & Hh & Hroutes & Hurl)
           | (_ & err & r1 & _ & Hr & _)]];
      rewrite Hr in Hrun; [| | done]; injection Hrun as _ <-;
      rewrite Hh, Hroutes, Hurl; split.
    + done.
    + intros title handler Hlook.
      destruct (decide (title0 = title)) as [-> | Hne].
      * rewrite lookup_insert_eq in Hlook. injection Hlook as <-. eauto.
      * rewrite lookup_insert_ne in Hlook by done. by apply IHh.
    + intros p handler Hlook.
      destruct (decide (doc_path title0 = p)) as [<- | Hne].
      * rewrite lookup_insert_eq in Hlook. injection Hlook as <-. eauto.
      * rewrite lookup_insert_ne in Hlook by done. by apply IHr.
    + intros title handler Hlook.
      destruct (decide (title0 = title)) as [-> | Hne].
      * rewrite lookup_insert_eq in Hlook. injection Hlook as <-.
        eexists. split; [done |]. right. rewrite lookup_insert_eq. eauto.
      * rewrite lookup_insert_ne in Hlook by done.
        destruct (IHh _ _ Hlook) as (docURL & -> & [-> | (Hroute & Hbase)]);
          eexists; (split; [done |]); [by left |].
        right. split; [| done].
        destruct (decide (doc_path title0 = doc_path title)) as [<- | Hp];
          [by rewrite lookup_insert_eq | by rewrite lookup_insert_ne].
  - destruct (HtmlDoc_cases title0 html r)
      as [(_ & r1 & Hr & _) | [(_ & base & r1 & _ & Hr & _)
                              | (Hhtml & err & r1 & _ & Hr & Hh & Hroutes & Hurl)]];
      rewrite Hr in Hrun; [done | done |]; injection Hrun as _ <-;
      rewrite Hh, Hroutes, Hurl; split.
    + intros p handler Hlook.
      destruct (decide (doc_path title0 = p)) as [<- | Hne].
      * rewrite lookup_insert_eq in Hlook. injection Hlook as <-. eauto.
      * rewrite lookup_insert_ne in Hlook by done. by apply IHr.
    + intros title handler Hlook.
      destruct (IHh _ _ Hlook) as (docURL & -> & [-> | (Hroute & Hbase)]);
        eexists; (split; [done |]); [by left |].
      right. split; [| done].
      destruct (decide (doc_path title0 = doc_path title)) as [<- | Hp];
        [by rewrite lookup_insert_eq | by rewrite lookup_insert_ne].
Qed.

(** ** Documentation paths *)

Lemma list_ascii_append (s1 s2 : string) :
  String.list_ascii_of_string (s1 +:+ s2)
  = String.list_ascii_of_string s1 ++ String.list_ascii_of_string s2.
Proof. induction s1 as [|c s1 IH]; simpl; [done | by rewrite IH]. Qed.

Lemma list_ascii_inj (s1 s2 : string) :
  String.list_ascii_of_string s1 = String.list_ascii_of_string s2 → s1 = s2.
Proof.
  intros Heq.
  by rewrite <- (String.string_of_list_ascii_of_string s1), Heq,
    String.string_of_list_ascii_of_string.
Qed.

Lemma append_inj_r (s1 s2 t : string) : s1 +:+ t = s2 +:+ t → s1 = s2.
Proof.
  intros Heq. apply list_ascii_inj.
  apply (f_equal String.list_ascii_of_string) in Heq.
  rewrite !list_ascii_append in Heq. by apply app_inv_tail in Heq.
Qed.

Lemma shouldEscape_percent mode : shouldEscape "%" mode = true.
Proof. by destruct mode. Qed.

(** The two hexadecimal digits [escape] writes determine the byte. *)
Lemma upperhex_decodes (c : ascii) :
  Reference.unhex (upperhex (N.shiftr (N_of_ascii c) 4)) ≫= (λ h,
    Reference.unhex (upperhex (N.land (N_of_ascii c) 15)) ≫= (λ l,
      Some (Ascii.ascii_of_N (16 * h + l)))) = Some c.
Proof. destruct c as [[] [] [] [] [] [] [] []]; reflexivity. Qed.

Lemma upperhex_inj (c1 c2 : ascii) :
  upperhex (N.shiftr (N_of_ascii c1) 4) = upperhex (N.shiftr (N_of_ascii c2) 4) →
  upperhex (N.land (N_of_ascii c1) 15) = upperhex (N.land (N_of_ascii c2) 15) →
  c1 = c2.
Proof.
  intros Hhi Hlo. pose proof (upperhex_decodes c1) as Hdec.
  rewrite Hhi, Hlo, upperhex_decodes in Hdec. by injection Hdec.
Qed.

Lemma escape_inj mode (s1 s2 : string) :
  escape s1 mode = escape s2 mode → s1 = s2.
Proof.
  revert s2. induction s1 as [|c1 s1 IH]; intros [|c2 s2]; simpl.
  - done.
  - by destruct (shouldEscape c2 mode).
  - by destruct (shouldEscape c1 mode).
  - destruct (shouldEscape c1 mode) eqn:E1, (shouldEscape c2 mode) eqn:E2;
      intros Heq.
    + injection Heq as Hhi Hlo Hrest.
      by rewrite (upperhex_inj c1 c2 Hhi Hlo), (IH s2 Hrest).
    + injection Heq as <- _. by rewrite shouldEscape_percent in E2.
    + injection Heq as -> _. by rewrite shouldEscape_percent in E1.
    + injection Heq as -> Hrest. by rewrite (IH s2 Hrest).
Qed.

Lemma doc_path_inj title1 title2 : doc_path title1 = doc_path title2 → title1 = title2.
Proof.
  unfold doc_path, PathEscape. intros Heq.
  apply (inj (String.append "/")) in Heq.
  apply append_inj_r in Heq. by apply escape_inj in Heq.
Qed.

(** X15: two different titles never share a documentation path, so a
    registration of one title leaves the page and the handler of every
    other title as they were. *)
Theorem pages_do_not_collide title1 title2 html (rfc7807 rfc7807' : RFC7807) h :
  title1 ≠ title2 →
  HtmlDoc title2 html rfc7807 = Returned h rfc7807' →
  doc_path title1 ≠ doc_path title2 ∧
  routes rfc7807' !! doc_path title1 = routes rfc7807 !! doc_path title1 ∧
  handlers rfc7807' !! title1 = handlers rfc7807 !! title1.
Proof.
  intros Hne Hrun.
  assert (doc_path title1 ≠ doc_path title2) as Hpath
    by (intros Heq; by apply Hne, doc_path_inj).
  split; [done |].
  destruct (HtmlDoc_cases title2 html rfc7807)
    as [(_ & r & Hr & Hh & Hroutes & _)
       | [(_ & base & r & _ & Hr & Hh & Hroutes & _)
         | (_ & err & r & _ & Hr & _)]];
    rewrite Hr in Hrun; [| | done]; injection Hrun as _ <-;
    rewrite Hh, Hroutes; by rewrite ?lookup_insert_ne.
Qed.

(** What a run of [HtmlDoc] that returns leaves and hands back. *)
Lemma HtmlDoc_returned title html (rfc7807 rfc7807' : RFC7807) h :
  HtmlDoc title html rfc7807 = Returned h rfc7807' →
  ∃ docURL,
    h = Some (problemHandler docURL title) ∧
    rfc7807' =
      {| URL := URL rfc7807;
         mux := Some (if decide (html = []) then routes rfc7807
                      else <[doc_path title := docHandler html]> (routes rfc7807));
         problemHandlers :=
           Some (<[title := problemHandler docURL title]> (handlers rfc7807)) |} ∧
    if decide (html = []) then docURL = ""
    else ∃ base, url_Parse (URL rfc7807) = inr base ∧ docURL = joined base title.
Proof.
  intros Hrun. destruct (decide (html = [])) as [-> | Hhtml].
  - rewrite HtmlDoc_empty in Hrun. injection Hrun as <- <-.
    by exists "".
  - destruct (url_Parse (URL rfc7807)) as [err | base] eqn:Hparse.
    + by rewrite (HtmlDoc_unparsed _ _ _ err) in Hrun.
    + rewrite (HtmlDoc_parsed _ _ _ base) in Hrun by done.
      injection Hrun as <- <-. exists (joined base title). eauto.
Qed.

Lemma HtmlDoc_returns title html (rfc7807 : RFC7807) docURL :
  (if decide (html = []) then docURL = ""
   else ∃ base, url_Parse (URL rfc7807) = inr base ∧ docURL = joined base title) →
  HtmlDoc title html rfc7807 =
  Returned (Some (problemHandler docURL title))
    {| URL := URL rfc7807;
       mux := Some (if decide (html = []) then routes rfc7807
                    else <[doc_path title := docHandler html]> (routes rfc7807));
       problemHandlers :=
         Some (<[title := problemHandler docURL title]> (handlers rfc7807)) |}.
Proof.
  destruct (decide (html = [])) as [-> | Hhtml].
  - intros ->. apply HtmlDoc_empty.
  - intros (base & Hparse & ->). by apply HtmlDoc_parsed.
Qed.

(** X16: registrations of two different titles commute: done in the other
    order they return the same two closures and leave the same registry. *)
Theorem registrations_commute titleA titleB htmlA htmlB
    (rfc7807 rfcA rfcAB : RFC7807) hA hB :
  titleA ≠ titleB →
  HtmlDoc titleA htmlA rfc7807 = Returned hA rfcA →
  HtmlDoc titleB htmlB rfcA = Returned hB rfcAB →
  ∃ rfcB,
    HtmlDoc titleB htmlB rfc7807 = Returned hB rfcB ∧
    HtmlDoc titleA htmlA rfcB = Returned hA rfcAB.
Proof.
  intros Hne HrunA HrunB.
  assert (doc_path titleA ≠ doc_path titleB) as Hpath
    by (intros Heq; by apply Hne, doc_path_inj).
  apply HtmlDoc_returned in HrunA as (dA & -> & -> & HdA).
  apply HtmlDoc_returned in HrunB as (dB & -> & -> & HdB).
  simpl in HdB.
  eexists. split; [by apply HtmlDoc_returns |].
  rewrite (HtmlDoc_returns titleA htmlA _ dA) by done.
  unfold routes, handlers. simpl. f_equal. f_equal.
  - f_equal. destruct (decide (htmlA = [])), (decide (htmlB = [])); try done.
    by apply insert_insert_ne.
  - f_equal. by apply insert_insert_ne.
Qed.

(** X17: registering the same title with the same content twice is the same
    as registering it once. *)
Theorem registration_idempotent title html (rfc7807 rfc7807' : RFC7807) h :
  HtmlDoc title html rfc7807 = Returned h rfc7807' →
  HtmlDoc title html rfc7807' = Returned h rfc7807'.
Proof.
  intros Hrun. apply HtmlDoc_returned in Hrun as (docURL & -> & -> & Hd).
  rewrite (HtmlDoc_returns title html _ docURL) by done.
  unfold routes, handlers. simpl. f_equal. f_equal.
  - f_equal. destruct (decide (html = [])); [done |]. by apply insert_insert_eq.
  - f_equal. by apply insert_insert_eq.
Qed.

(** ** The last element of the joined path *)

Lemma string_of_list_ascii_app (l1 l2 : list ascii) :
  String.string_of_list_ascii (l1 ++ l2)
  = String.string_of_list_ascii l1 +:+ String.string_of_list_ascii l2.
Proof. induction l1 as [|c l1 IH]; simpl; [done | by rewrite IH]. Qed.

Lemma clean_loop_copy rooted (rest : string) out dotdot :
  Forall (λ c, c ≠ "/"%char) (String.list_ascii_of_string rest) →
  clean_loop rooted rest true out dotdot
  = rev (String.list_ascii_of_string rest) ++ out.
Proof.
  revert out. induction rest as [|c rest IH]; intros out Hrest; simpl.
  - done.
  - apply Forall_cons in Hrest as [Hc Hrest].
    rewrite bool_decide_eq_false_2 by done.
    rewrite IH by done. by rewrite <- app_assoc.
Qed.

Lemma clean_loop_element rooted (seg : string) out dotdot :
  kept_element seg →
  clean_loop rooted seg false out dotdot
  = rev (String.list_ascii_of_string seg)
    ++ (if needs_slash rooted out then "/"%char :: out else out).
Proof.
  intros [Hslash Hlen].
  destruct seg as [|c [|c' [|c'' rest]]]; simpl in Hlen; [lia | lia | lia |].
  pose proof Hslash as Hall.
  apply Forall_cons in Hslash as [Hc Hslash].
  apply Forall_cons in Hslash as [Hc' Hslash].
  apply Forall_cons in Hslash as [Hc'' Hslash].
  apply Forall_cons in Hall as [_ Hall].
  cbn [clean_loop at_element_end].
  rewrite (bool_decide_eq_false_2 (c = "/"%char)) by done.
  rewrite (bool_decide_eq_false_2 (c' = "/"%char)) by done.
  rewrite (bool_decide_eq_false_2 (c'' = "/"%char)) by done.
  rewrite !andb_false_r.
  fold (needs_slash rooted out).
  rewrite clean_loop_copy by done.
  cbn [String.list_ascii_of_string rev]. by rewrite <- !app_assoc.
Qed.

Lemma backtrack_keeps_root last (top : list ascii) :
  ∃ top', backtrack 1 last (top ++ ["/"%char]) = top' ++ ["/"%char].
Proof.
  revert last. induction top as [|a top IH]; intros last; simpl.
  - by exists [].
  - destruct (bool_decide _ && negb _); [apply IH | by exists (a :: top)].
Qed.

Lemma append_nil_l (s : string) : "" +:+ s = s.
Proof. reflexivity. Qed.

Lemma append_cons (c : ascii) (s1 s2 : string) :
  String c s1 +:+ s2 = String c (s1 +:+ s2).
Proof. reflexivity. Qed.

Lemma clean_loop_slash rooted (rest : string) inElem out dotdot :
  clean_loop rooted (String "/" rest) inElem out dotdot
  = clean_loop rooted rest false out dotdot.
Proof. by destruct inElem. Qed.

Lemma clean_loop_last_element rooted (seg : string) :
  kept_element seg →
  ∀ n (s1 : string) inElem out dotdot,
    (String.length s1 ≤ n)%nat →
    root_kept rooted out dotdot →
    ∃ out1 dotdot1,
      root_kept rooted out1 dotdot1 ∧
      clean_loop rooted (s1 +:+ String "/" seg) inElem out dotdot
      = rev (String.list_ascii_of_string seg)
        ++ (if needs_slash rooted out1 then "/"%char :: out1 else out1).
Proof.
  intros Hseg.
  assert (∀ out dotdot c, root_kept rooted out dotdot →
            root_kept rooted (c :: out) dotdot) as Hpush.
  { intros out dotdot c Hroot Hrooted.
    destruct (Hroot Hrooted) as (-> & top & ->). split; [done |].
    by exists (c :: top). }
  induction n as [|n IH]; intros s1 inElem out dotdot Hlen Hroot.
  - destruct s1 as [|c s1]; [| simpl in Hlen; lia].
    exists out, dotdot. split; [done |].
    rewrite append_nil_l, clean_loop_slash. by apply clean_loop_element.
  - destruct s1 as [|c s1].
    { exists out, dotdot. split; [done |].
      rewrite append_nil_l, clean_loop_slash. by apply clean_loop_element. }
    simpl in Hlen. assert (String.length s1 ≤ n)%nat as Hlen1 by lia.
    rewrite append_cons. cbn [clean_loop].
    destruct inElem.
    { destruct (bool_decide (c = "/"%char)); apply IH; auto. }
    destruct (bool_decide (c = "/"%char)); [by apply IH |].
    destruct (bool_decide (c = "."%char) && at_element_end _); [by apply IH |].
    destruct s1 as [|c' s1].
    { rewrite append_nil_l. cbn [at_element_end].
      rewrite (bool_decide_eq_false_2 ("/"%char = "."%char)) by done.
      rewrite andb_false_r. cbn [andb].
      fold (needs_slash rooted out).
      rewrite <- (append_nil_l (String "/" seg)).
      apply (IH ""); [simpl; lia |].
      destruct (needs_slash rooted out); auto. }
    rewrite append_cons. fold (needs_slash rooted out).
    simpl in Hlen1. assert (String.length s1 ≤ n)%nat as Hlen2 by lia.
    destruct (bool_decide (c = "."%char) && bool_decide (c' = "."%char)
              && at_element_end _).
    + destruct (bool_decide (dotdot < length out)%nat) eqn:Hback.
      * destruct out as [|last out]; [by apply IH |].
        apply IH; [done |]. intros Hrooted.
        destruct (Hroot Hrooted) as (-> & top & Hout). split; [done |].
        apply bool_decide_eq_true_1 in Hback. simpl in Hback.
        destruct top as [|a top]; simplify_eq/=; [lia |].
        apply backtrack_keeps_root.
      * destruct rooted; simpl; [by apply IH |].
        apply IH; [done |]. by intros ?.
    + apply (IH (String c' s1)); [done |].
      destruct (needs_slash rooted out); auto.
Qed.

Lemma Clean_last_element (s1 seg : string) :
  kept_element seg →
  ∃ prefix,
    Clean (s1 +:+ String "/" seg) = prefix +:+ seg ∧
    (prefix = "" ∨ ∃ p, prefix = p +:+ "/").
Proof.
  intros Hseg.
  assert (∃ c rest, s1 +:+ String "/" seg = String c rest) as (c & rest & Hpath)
    by (destruct s1; simpl; eauto).
  unfold Clean. rewrite Hpath. rewrite <- Hpath. clear Hpath rest.
  set (rooted := bool_decide (c = "/"%char)).
  destruct (clean_loop_last_element rooted seg Hseg (String.length s1) s1 false
              (if rooted then ["/"%char] else []) (if rooted then 1%nat else 0%nat))
    as (out1 & dotdot1 & Hroot & ->); [done | |].
  { intros ->. split; [done |]. by exists []. }
  assert (String.list_ascii_of_string seg ≠ []) as Hne.
  { destruct Hseg as [_ Hlen]. destruct seg; simpl in *; [lia | done]. }
  destruct (rev (String.list_ascii_of_string seg) ++ _) as [|a l] eqn:Hout.
  { apply app_eq_nil in Hout as [Hrev _].
    apply (f_equal (@rev ascii)) in Hrev. by rewrite rev_involutive in Hrev. }
  rewrite <- Hout, rev_app_distr, rev_involutive, string_of_list_ascii_app,
    String.string_of_list_ascii_of_string.
  eexists. split; [reflexivity |].
  unfold needs_slash. destruct rooted eqn:Hrooted; simpl.
  - destruct (Hroot eq_refl) as (_ & top & ->).
    case_bool_decide as Hone; simpl.
    + right. exists "".
      destruct top as [|a' top]; [done |].
      rewrite length_app in Hone. simpl in Hone. lia.
    + right. rewrite string_of_list_ascii_app. eauto.
  - case_bool_decide as Hzero; simpl.
    + left. by destruct out1.
    + right. rewrite string_of_list_ascii_app. eauto.
Qed.

Lemma path_Join_doc (b seg : string) :
  path_Join [b; String "/" seg]
  = Clean ((if decide (b = "") then "" else b +:+ "/") +:+ String "/" seg).
Proof.
  unfold path_Join. cbn [foldl].
  rewrite (bool_decide_eq_false_2 (_ = 0%nat)) by (simpl; lia).
  rewrite (bool_decide_eq_false_2 (String "/" seg = "")) by done.
  rewrite (bool_decide_eq_false_2 (0 < String.length "")%nat) by (simpl; lia).
  cbn [orb negb]. rewrite append_nil_l.
  destruct b as [|c b].
  - rewrite (bool_decide_eq_true_2 ("" = "")) by done. cbn [negb].
    rewrite (bool_decide_eq_false_2 (0 < String.length "")%nat) by (simpl; lia).
    by rewrite decide_True.
  - rewrite (bool_decide_eq_false_2 (String c b = "")) by done. cbn [negb].
    rewrite (bool_decide_eq_true_2 (0 < String.length _)%nat) by (simpl; lia).
    rewrite decide_False by done. cbn [orb]. done.
Qed.

Lemma upperhex_no_slash (c : ascii) :
  upperhex (N.shiftr (N_of_ascii c) 4) ≠ "/"%char ∧
  upperhex (N.land (N_of_ascii c) 15) ≠ "/"%char.
Proof. destruct c as [[] [] [] [] [] [] [] []]; by vm_compute. Qed.

Lemma escape_no_slash (s : string) :
  Forall (λ c, c ≠ "/"%char) (String.list_ascii_of_string (PathEscape s)).
Proof.
  unfold PathEscape. induction s as [|c s IH]; simpl; [constructor |].
  destruct (shouldEscape c encodePathSegment) eqn:Hc; simpl.
  - destruct (upperhex_no_slash c) as [Hhi Hlo]. by repeat constructor.
  - constructor; [| done]. intros ->. by vm_compute in Hc.
Qed.

Lemma length_list_ascii (s : string) :
  String.length s = length (String.list_ascii_of_string s).
Proof. induction s as [|c s IH]; simpl; [done | by rewrite IH]. Qed.

Lemma doc_segment_kept title : kept_element (PathEscape title +:+ ".html").
Proof.
  split.
  - rewrite list_ascii_append. apply Forall_app. split; [apply escape_no_slash |].
    by repeat constructor.
  - rewrite length_list_ascii, list_ascii_append, length_app. simpl. lia.
Qed.

(** X18: whatever the path of the base URL (dots, doubled or trailing
    slashes, none at all), the path handed to [URL.String] for the
    documentation URL ends with the page name of the title, the escaped
    title followed by .html, as its last element. *)
Theorem documentation_URL_ends_with_page title html (rfc7807 rfc7807' : RFC7807) h :
  html ≠ [] →
  HtmlDoc title html rfc7807 = Returned h rfc7807' →
  ∃ base prefix,
    url_Parse (URL rfc7807) = inr base ∧
    path_Join [Path base; "/" +:+ PathEscape title +:+ ".html"]
      = prefix +:+ PathEscape title +:+ ".html" ∧
    (prefix = "" ∨ ∃ p, prefix = p +:+ "/") ∧
    h = Some (problemHandler
                (URL_String (set_Path base (prefix +:+ PathEscape title +:+ ".html")))
                title).
Proof.
  intros Hhtml Hrun.
  destruct (url_Parse (URL rfc7807)) as [err | base] eqn:Hparse.
  { by rewrite (HtmlDoc_unparsed _ _ _ err) in Hrun. }
  rewrite (HtmlDoc_parsed _ _ _ base) in Hrun by done. injection Hrun as <- _.
  destruct (Clean_last_element
              (if decide (Path base = "") then "" else Path base +:+ "/")
              (PathEscape title +:+ ".html") (doc_segment_kept title))
    as (prefix & Hclean & Hprefix).
  exists base, prefix. split; [done |].
  assert (path_Join [Path base; "/" +:+ PathEscape title +:+ ".html"]
          = prefix +:+ PathEscape title +:+ ".html") as Hjoin.
  { rewrite <- Hclean. apply path_Join_doc. }
  split; [done |]. split; [done |].
  unfold joined, doc_path. by rewrite Hjoin.
Qed.

(** ** Every way to register, and writers already used *)

(** X19: after a registration of any kind that reports no error, whether by
    [Doc], [TemplateDoc], [MarkdownDoc] or [HtmlDoc], a dispatch for its
    title runs the closure the registration returned and emits that title
    and the documentation URL the closure captured. *)
Theorem dispatch_after_any_registration reg (rfc7807 rfc7807' : RFC7807) h
    w status detail extensions :
  register reg rfc7807 = Returned (h, None) rfc7807' →
  ∃ docURL problem,
    h = Some (problemHandler docURL (registered_title reg)) ∧
    Error w (registered_title reg) status detail extensions rfc7807'
      = Returned (writeProblem w status problem) rfc7807' ∧
    problem !! "type" = Some (VString docURL) ∧
    problem !! "title" = Some (VString (registered_title reg)).
Proof.
  intros Hrun. apply register_runs_HtmlDoc in Hrun as [html Hrun].
  apply HtmlDoc_returned in Hrun as (docURL & -> & -> & _).
  destruct (problemHandler_writes docURL (registered_title reg) w status detail
              extensions) as (problem & Hw & Htype & Htitle & _).
  exists docURL, problem. repeat split; try done.
  rewrite <- Hw. apply Error_registered.
  unfold handlers. simpl. by rewrite lookup_insert_eq.
Qed.

(** X20: a template that renders to no bytes registers its title without a
    page: the closure captures the empty documentation URL, no route is
    installed and the base URL is not parsed. *)
Theorem TemplateDoc_empty_rendering title description templateStr template
    (rfc7807 : RFC7807) :
  template_Parse "default.tpl" templateStr = inr template →
  template_Execute template
    (<["Title" := title]> (<["Description" := description]> ∅)) = ([], None) →
  ∃ rfc7807',
    TemplateDoc title description templateStr rfc7807
      = Returned (Some (problemHandler "" title), None) rfc7807' ∧
    routes rfc7807' = routes rfc7807 ∧
    handlers rfc7807' !! title = Some (problemHandler "" title).
Proof.
  intros Hparse Hexec. unfold TemplateDoc. rewrite Hparse, Hexec.
  unfold bind, ret. simpl. rewrite HtmlDoc_empty.
  eexists. split; [done |]. split; [done |].
  unfold handlers. simpl. by rewrite lookup_insert_eq.
Qed.

Lemma writeProblem_header_written w status problem sent :
  wroteHeader w = Some sent →
  wroteHeader (writeProblem w status problem) = Some sent.
Proof.
  intros Hw. unfold writeProblem, Encode, Write, WriteHeader. simpl.
  rewrite Hw. simpl. rewrite Hw. by destruct (encoded _ _ _).
Qed.

(** X21: a dispatch on a writer whose header was already written, a second
    [Error] in one request for instance, leaves the status and the headers
    that were sent and only appends to the body. *)
Theorem dispatch_after_header_written (rfc7807 : RFC7807) w sent title status detail
    extensions :
  reachable rfc7807 →
  wroteHeader w = Some sent →
  ∃ w' body,
    Error w title status detail extensions rfc7807 = Returned w' rfc7807 ∧
    wroteHeader w' = Some sent ∧
    written w' = written w ++ body.
Proof.
  intros Hreach Hsent.
  destruct (Error_writes rfc7807 w title status detail extensions Hreach)
    as (problem & ->).
  eexists _, _. split; [done |].
  split; [by apply writeProblem_header_written | apply writeProblem_written].
Qed.

End Properties.

(** * The properties on concrete runs *)

Import Reference.

(** C1, counterexample: the title Gone is not registered and the caller
    passes an extension named type; the body carries the caller's value. *)
Lemma fallback_keeps_extension_type :
  ∃ w,
    Error newResponseWriter "Gone" 410 "no longer here" [Ext "type" (VString "bogus")]
          (New "https://api.example.com")
      = Returned w (New "https://api.example.com") ∧
    written w =
      bytes_of (json_text
        "{|  'detail': 'no longer here',|  'status': 410,|  'title': 'Gone',|  'type': 'bogus'|}|").
Proof. eexists. split; [reflexivity | by vm_compute]. Qed.

(** C1, witness: an extension named title on the fallback path. *)
Lemma reserved_keys_written_last_witness :
  ∃ problem,
    Error newResponseWriter "Gone" 410 "no longer here"
          [Ext "title" (VString "bogus")] (New "https://api.example.com")
      = Returned (writeProblem newResponseWriter 410 problem)
                 (New "https://api.example.com") ∧
    problem !! "status" = Some (VInt 410) ∧
    problem !! "detail" = Some (VString "no longer here") ∧
    problem !! "title" = Some (VString "Gone") ∧
    problem !! "type" = None.
Proof.
  exact (reserved_keys_written_last (New "https://api.example.com")
           newResponseWriter "Gone" 410 "no longer here"
           [Ext "title" (VString "bogus")] (reachable_New _)).
Defined.



(** C4, witness: NotFound registered without a page, then with one. *)
Lemma last_registration_wins_witness :
  let rfc0 := New "https://api.example.com" in
  let rfc1 := state_after (HtmlDoc "NotFound" []) rfc0 in
  let rfc2 := state_after (HtmlDoc "NotFound" (bytes_of "<html></html>")) rfc1 in
  let h := problemHandler "https://api.example.com/NotFound.html" "NotFound" in
  ∃ docURL problem,
    Some h = Some (problemHandler docURL "NotFound") ∧
    handlers rfc2 !! "NotFound" = Some h ∧
    (docURL = "" ∨ ∃ base, url_Parse (URL rfc1) = inr base
                           ∧ docURL = joined base "NotFound") ∧
    Error newResponseWriter "NotFound" 404 "no such user" [] rfc2
      = Returned (problemHandler docURL "NotFound" newResponseWriter 404
                    "no such user" []) rfc2 ∧
    problemHandler docURL "NotFound" newResponseWriter 404 "no such user" []
      = writeProblem newResponseWriter 404 problem ∧
    problem !! "type" = Some (VString docURL).
Proof.
  intros rfc0 rfc1 rfc2 h.
  apply (last_registration_wins
           (ByHtmlDoc "NotFound" [])
           (ByHtmlDoc "NotFound" (bytes_of "<html></html>"))
           rfc0 rfc1 rfc2 (Some (problemHandler "" "NotFound")) (Some h));
    reflexivity.
Defined.


(** C6, witness: a template whose action is not closed. *)
Lemma TemplateDoc_error_leaves_registry_witness :
  let rfc0 := New "https://api.example.com" in
  TemplateDoc "Oops" "bad input" "<h1>{{.Title</h1>" rfc0
    = Returned (None, Some "template: default.tpl:1: unclosed action") rfc0.
Proof.
  intros rfc0.
  apply (TemplateDoc_error_leaves_registry "Oops" "bad input" "<h1>{{.Title</h1>" rfc0).
  left. reflexivity.
Defined.

(** C7: the route handler sets the Content-Type after [WriteHeader].  With
    the bytes hello registered for the title T, a GET on /T.html sends the
    status 200 and the bytes, without a Content-Type header; the header only
    reaches the handler's map. *)
Theorem docHandler_sets_Content_Type_after_WriteHeader :
  ∃ h registered w,
    HtmlDoc "T" (bytes_of "hello") (New "https://api.example.com")
      = Returned h registered ∧
    ServeHTTP newResponseWriter {| Method := "GET"; RequestPath := "/T.html" |} registered
      = Returned w registered ∧
    sentStatus w = Some 200 ∧
    written w = bytes_of "hello" ∧
    sentHeader w "Content-Type" = None ∧
    handlerHeader w !! "Content-Type" = Some ["text/html; charset=utf-8"].
Proof.
  eexists _, _, _.
  split; [reflexivity |]. split; [reflexivity |].
  split; [reflexivity |]. split; [reflexivity |].
  split; reflexivity.
Qed.

(** C8, counterexample: two extensions named detail; the body carries the
    detail argument, not the value of the last of them. *)
Lemma duplicate_reserved_key_is_overwritten :
  ∃ w,
    Error newResponseWriter "Gone" 410 "no longer here"
          [Ext "detail" (VString "first"); Ext "detail" (VString "second")]
          (New "https://api.example.com")
      = Returned w (New "https://api.example.com") ∧
    written w =
      bytes_of (json_text
        "{|  'detail': 'no longer here',|  'status': 410,|  'title': 'Gone'|}|").
Proof. eexists. split; [reflexivity | by vm_compute]. Qed.

(** C8, witness: two extensions named trace against the registered closure
    of NotFound. *)
Lemma extensions_last_entry_wins_witness :
  let rfc1 := state_after (HtmlDoc "NotFound" []) (New "https://api.example.com") in
  ∃ problem,
    Error newResponseWriter "NotFound" 404 "no such user"
          [Ext "trace" (VInt 1); Ext "trace" (VInt 2)] rfc1
      = Returned (writeProblem newResponseWriter 404 problem) rfc1 ∧
    problem !! "trace" = Some (VInt 2).
Proof.
  intros rfc1.
  apply (extensions_last_entry_wins rfc1 newResponseWriter "NotFound" 404
           "no such user" [Ext "trace" (VInt 1); Ext "trace" (VInt 2)]
           [Ext "trace" (VInt 1)] [] "trace" (VInt 2)).
  - apply (reachable_HtmlDoc (New "https://api.example.com") "NotFound" []
             (Some (problemHandler "" "NotFound")));
      [apply reachable_New | reflexivity].
  - reflexivity.
  - constructor.
  - apply (bool_decide_unpack _). vm_compute. exact I.
  - intros _. discriminate.
Defined.

(** C10, witness: a base URL that ends in a line feed. *)
Lemma HtmlDoc_panics_on_rejected_URL_witness :
  ∃ rfc7807',
    HtmlDoc "NotFound" (bytes_of "<html></html>") (New ("https://api.example.com" +:+ lf))
      = Panicked nil_dereference rfc7807' ∧
    routes rfc7807' = {[ doc_path "NotFound" := docHandler (bytes_of "<html></html>") ]} ∧
    handlers rfc7807' = ∅.
Proof.
  apply (HtmlDoc_panics_on_rejected_URL ("https://api.example.com" +:+ lf)
           "net/url: invalid control character in URL");
    [reflexivity | discriminate].
Defined.


(** X2, witness: the page of Bad Input. *)
Lemma doc_page_status_and_body_witness :
  let rfc1 := state_after (HtmlDoc "Bad Input" (bytes_of "<html></html>"))
                          (New "https://api.example.com") in
  ∃ w',
    ServeHTTP newResponseWriter
              {| Method := "GET"; RequestPath := doc_path "Bad Input" |} rfc1
      = Returned w' rfc1 ∧
    sentStatus w' = Some 200 ∧
    written w' = written newResponseWriter ++ bytes_of "<html></html>".
Proof.
  intros rfc1.
  apply (doc_page_status_and_body "Bad Input" (bytes_of "<html></html>")
           (New "https://api.example.com") rfc1
           (Some (problemHandler "https://api.example.com/Bad%2520Input.html"
                                 "Bad Input")));
    [discriminate | reflexivity | reflexivity].
Defined.

(** X3, witness: NotFound registered with a page, then dispatched. *)
Lemma dispatch_after_registration_witness :
  let rfc0 := New "https://api.example.com" in
  let rfc1 := state_after (HtmlDoc "NotFound" (bytes_of "<html></html>")) rfc0 in
  let h := problemHandler "https://api.example.com/NotFound.html" "NotFound" in
  ∃ docURL problem,
    Some h = Some (problemHandler docURL "NotFound") ∧
    Error newResponseWriter "NotFound" 404 "no such user" [] rfc1
      = Returned (writeProblem newResponseWriter 404 problem) rfc1 ∧
    problem !! "type" = Some (VString docURL) ∧
    problem !! "title" = Some (VString "NotFound") ∧
    (bytes_of "<html></html>" = [] → docURL = "") ∧
    (bytes_of "<html></html>" ≠ [] →
       ∃ base, url_Parse (URL rfc0) = inr base ∧ docURL = joined base "NotFound").
Proof.
  intros rfc0 rfc1 h.
  apply (dispatch_after_registration "NotFound" (bytes_of "<html></html>")
           rfc0 rfc1 (Some h)).
  reflexivity.
Defined.

(** X4, witness: registering Gone after NotFound. *)
Lemma registration_frame_witness :
  let rfc1 := state_after (HtmlDoc "NotFound" (bytes_of "<html></html>"))
                          (New "https://api.example.com") in
  let rfc2 := state_after (HtmlDoc "Gone" []) rfc1 in
  URL rfc2 = URL rfc1 ∧
  (∀ title', title' ≠ "Gone" → handlers rfc2 !! title' = handlers rfc1 !! title') ∧
  (∀ p, p ≠ doc_path "Gone" → routes rfc2 !! p = routes rfc1 !! p).
Proof.
  intros rfc1 rfc2.
  apply (registration_frame "Gone" [] rfc1 rfc2 (Some (problemHandler "" "Gone"))).
  reflexivity.
Defined.



(** X9, witness: a registration under a base URL that ends in a line feed. *)
Lemma failed_registration_keeps_dispatch_witness :
  let rfc0 := New ("https://api.example.com" +:+ lf) in
  let rfc1 := state_after (HtmlDoc "NotFound" (bytes_of "<html></html>")) rfc0 in
  routes rfc1 !! doc_path "NotFound" = Some (docHandler (bytes_of "<html></html>")) ∧
  ∃ w',
    Error newResponseWriter "NotFound" 404 "no such user" [] rfc0 = Returned w' rfc0 ∧
    Error newResponseWriter "NotFound" 404 "no such user" [] rfc1 = Returned w' rfc1.
Proof.
  intros rfc0 rfc1.
  apply (failed_registration_keeps_dispatch "NotFound" (bytes_of "<html></html>")
           rfc0 rfc1 nil_dereference).
  reflexivity.
Defined.

(** X10, witness: a template that renders. *)
Lemma TemplateDoc_result_contract_witness :
  let rfc0 := New "https://api.example.com" in
  let rfc1 := state_after (TemplateDoc "Oops" "bad input" "<h1>{{.Title}}</h1>") rfc0 in
  let h := Some (problemHandler "https://api.example.com/Oops.html" "Oops") in
  (h = None ∧ is_Some (@None string) ∧ rfc1 = rfc0) ∨
  (@None string = None ∧ is_Some h ∧ handlers rfc1 !! "Oops" = h).
Proof.
  intros rfc0 rfc1 h.
  apply (TemplateDoc_result_contract "Oops" "bad input" "<h1>{{.Title}}</h1>" rfc0 rfc1).
  reflexivity.
Defined.

(** X12, witness: NotFound registered with a page, then without one. *)
Lemma reregistration_page_witness :
  let rfc0 := New "https://api.example.com" in
  let rfc1 := state_after (HtmlDoc "NotFound" (bytes_of "<html></html>")) rfc0 in
  let rfc2 := state_after (HtmlDoc "NotFound" []) rfc1 in
  let aRequest := {| Method := "GET"; RequestPath := doc_path "NotFound" |} in
  ServeHTTP newResponseWriter aRequest rfc2
    = Returned (docHandler (if decide (@nil byte = []) then bytes_of "<html></html>"
                            else [])
                           newResponseWriter aRequest) rfc2 ∧
  (@nil byte = [] →
     Some (problemHandler "" "NotFound") = Some (problemHandler "" "NotFound")).
Proof.
  intros rfc0 rfc1 rfc2.
  apply (reregistration_page "NotFound" (bytes_of "<html></html>") [] rfc0 rfc1 rfc2
           (Some (problemHandler "https://api.example.com/NotFound.html" "NotFound"))
           (Some (problemHandler "" "NotFound")) newResponseWriter);
    [discriminate | reflexivity | reflexivity].
Defined.

(** X13, witness: a dispatch with two extensions on an empty registry. *)
Lemma problem_keys_witness :
  ∃ problem,
    Error newResponseWriter "Gone" 410 "no longer here"
          [Ext "trace" (VInt 1); Ext "retry" (VBool false)]
          (New "https://api.example.com")
      = Returned (writeProblem newResponseWriter 410 problem)
                 (New "https://api.example.com") ∧
    dom problem =
      match handlers (New "https://api.example.com") !! "Gone" with
      | Some _ => {["type"]}
      | None => ∅
      end
      ∪ {["title"; "status"; "detail"]}
      ∪ list_to_set (Key <$> [Ext "trace" (VInt 1); Ext "retry" (VBool false)]).
Proof.
  apply (problem_keys (New "https://api.example.com") newResponseWriter "Gone" 410
           "no longer here" [Ext "trace" (VInt 1); Ext "retry" (VBool false)]).
  apply reachable_New.
Defined.

(** X14, witness: the registry after one registration with a page. *)
Lemma registry_invariant_witness :
  let rfc1 := state_after (HtmlDoc "NotFound" (bytes_of "<html></html>"))
                          (New "https://api.example.com") in
  (∀ p handler, routes rfc1 !! p = Some handler →
     ∃ title html, html ≠ [] ∧ p = doc_path title ∧ handler = docHandler html) ∧
  (∀ title handler, handlers rfc1 !! title = Some handler →
     ∃ docURL, handler = problemHandler docURL title ∧
       (docURL = "" ∨
        (is_Some (routes rfc1 !! doc_path title) ∧
         ∃ base, url_Parse (URL rfc1) = inr base ∧ docURL = joined base title))).
Proof.
  intros rfc1.
  apply (registry_invariant rfc1).
  apply (reachable_HtmlDoc (New "https://api.example.com") "NotFound"
           (bytes_of "<html></html>")
           (Some (problemHandler "https://api.example.com/NotFound.html" "NotFound")));
    [apply reachable_New | reflexivity].
Defined.

(** X15, witness: Gone registered after NotFound. *)
Lemma pages_do_not_collide_witness :
  let rfc1 := state_after (HtmlDoc "NotFound" (bytes_of "<html></html>"))
                          (New "https://api.example.com") in
  let rfc2 := state_after (HtmlDoc "Gone" (bytes_of "<html>gone</html>")) rfc1 in
  doc_path "NotFound" ≠ doc_path "Gone" ∧
  routes rfc2 !! doc_path "NotFound" = routes rfc1 !! doc_path "NotFound" ∧
  handlers rfc2 !! "NotFound" = handlers rfc1 !! "NotFound".
Proof.
  intros rfc1 rfc2.
  apply (pages_do_not_collide "NotFound" "Gone" (bytes_of "<html>gone</html>") rfc1 rfc2
           (Some (problemHandler "https://api.example.com/Gone.html" "Gone")));
    [discriminate | reflexivity].
Defined.

(** X16, witness: NotFound with a page and Gone without one, in both orders. *)
Lemma registrations_commute_witness :
  let rfc0 := New "https://api.example.com" in
  let rfcA := state_after (HtmlDoc "NotFound" (bytes_of "<html></html>")) rfc0 in
  let rfcAB := state_after (HtmlDoc "Gone" []) rfcA in
  ∃ rfcB,
    HtmlDoc "Gone" [] rfc0 = Returned (Some (problemHandler "" "Gone")) rfcB ∧
    HtmlDoc "NotFound" (bytes_of "<html></html>") rfcB
      = Returned (Some (problemHandler "https://api.example.com/NotFound.html"
                                       "NotFound")) rfcAB.
Proof.
  intros rfc0 rfcA rfcAB.
  apply (registrations_commute "NotFound" "Gone" (bytes_of "<html></html>") []
           rfc0 rfcA rfcAB);
    [discriminate | reflexivity | reflexivity].
Defined.

(** X17, witness: NotFound registered twice with the same page. *)
Lemma registration_idempotent_witness :
  let rfc1 := state_after (HtmlDoc "NotFound" (bytes_of "<html></html>"))
                          (New "https://api.example.com") in
  HtmlDoc "NotFound" (bytes_of "<html></html>") rfc1
    = Returned (Some (problemHandler "https://api.example.com/NotFound.html"
                                     "NotFound")) rfc1.
Proof.
  intros rfc1.
  apply (registration_idempotent "NotFound" (bytes_of "<html></html>")
           (New "https://api.example.com") rfc1).
  reflexivity.
Defined.

(** X18, witness: Bad Input under a base path that ends in dots. *)
Lemma documentation_URL_ends_with_page_witness :
  let rfc0 := New "https://api.example.com/docs/v1/.." in
  let rfc1 := state_after (HtmlDoc "Bad Input" (bytes_of "<html></html>")) rfc0 in
  ∃ base prefix,
    url_Parse (URL rfc0) = inr base ∧
    path_Join [Path base; "/" +:+ PathEscape "Bad Input" +:+ ".html"]
      = prefix +:+ PathEscape "Bad Input" +:+ ".html" ∧
    (prefix = "" ∨ ∃ p, prefix = p +:+ "/") ∧
    Some (problemHandler "https://api.example.com/docs/Bad%2520Input.html" "Bad Input")
      = Some (problemHandler
                (URL_String (set_Path base (prefix +:+ PathEscape "Bad Input" +:+ ".html")))
                "Bad Input").
Proof.
  intros rfc0 rfc1.
  apply (documentation_URL_ends_with_page "Bad Input" (bytes_of "<html></html>")
           rfc0 rfc1);
    [discriminate | reflexivity].
Defined.

(** X19, witness: a registration by [MarkdownDoc]. *)
Lemma dispatch_after_any_registration_witness :
  let rfc0 := New "https://api.example.com" in
  let rfc1 := state_after (MarkdownDoc "NotFound" (bytes_of "no such thing")) rfc0 in
  let h := problemHandler "https://api.example.com/NotFound.html" "NotFound" in
  ∃ docURL problem,
    Some h = Some (problemHandler docURL "NotFound") ∧
    Error newResponseWriter "NotFound" 404 "no such user" [] rfc1
      = Returned (writeProblem newResponseWriter 404 problem) rfc1 ∧
    problem !! "type" = Some (VString docURL) ∧
    problem !! "title" = Some (VString "NotFound").
Proof.
  intros rfc0 rfc1 h.
  apply (dispatch_after_any_registration
           (ByMarkdownDoc "NotFound" (bytes_of "no such thing")) rfc0 rfc1 (Some h)).
  reflexivity.
Defined.

(** X20, witness: the empty template. *)
Lemma TemplateDoc_empty_rendering_witness :
  ∃ rfc7807',
    TemplateDoc "Oops" "bad input" "" (New ("https://api.example.com" +:+ lf))
      = Returned (Some (problemHandler "" "Oops"), None) rfc7807' ∧
    routes rfc7807' = routes (New ("https://api.example.com" +:+ lf)) ∧
    handlers rfc7807' !! "Oops" = Some (problemHandler "" "Oops").
Proof.
  eapply (TemplateDoc_empty_rendering "Oops" "bad input" ""); reflexivity.
Defined.

(** X21, witness: a second dispatch on the writer of a first one. *)
Lemma dispatch_after_header_written_witness :
  let rfc0 := New "https://api.example.com" in
  let w := writeProblem newResponseWriter 404 ∅ in
  ∃ w' body,
    Error w "Gone" 410 "no longer here" [] rfc0 = Returned w' rfc0 ∧
    wroteHeader w' = Some (404, ∅) ∧
    written w' = written w ++ body.
Proof.
  intros rfc0 w.
  apply (dispatch_after_header_written rfc0 w (404, ∅) "Gone" 410 "no longer here" []);
    [apply reachable_New | reflexivity].
Defined.
